(** * caronte: the HTTP router of [internal/core/application_router.go]

    A shallow embedding of [CreateApplicationRouter]: the routes it registers
    with their handlers, the two middlewares of the [/api] group and the
    response helpers, together with the properties of the REST surface.  The
    middlewares of the engine itself (logger, recovery, static files) are
    outside the embedding.

    Conventions of the embedding.
    - A Go handler [func(c *gin.Context)] mutates the response writer of [c],
      the shared [*ApplicationContext] and, through the controllers, the
      storage, the file system and the clock.  Here it is a computation in the
      monad [M]: a function on an [Exchange], the state of one request being
      served, which may end in a Go panic.
    - Controllers, storage helpers and library functions whose code is not in
      the router file are interfaces (type classes) over an abstract world [W].
    - Every controller call, file-system call and notification is appended to
      the [trace] of the exchange, so that "the handler never reaches X" is a
      statement about that trace. *)

From Stdlib Require Import ZArith.
From stdpp Require Import base option strings gmap list pretty.

Local Open Scope Z_scope.
Local Open Scope string_scope.

(** Go's [error], observed through [err.Error()]. *)
Definition error := string.

(** A Go result pair [(T, error)]. *)
Inductive result (T : Type) :=
  | Ok (v : T)
  | Err (err : error).
Arguments Ok {T} v.
Arguments Err {T} err.

(** ** net/http status codes used by the router *)
Module http.
Definition StatusOK : Z := 200.
Definition StatusAccepted : Z := 202.
Definition StatusBadRequest : Z := 400.
Definition StatusUnauthorized : Z := 401.
Definition StatusNotFound : Z := 404.
Definition StatusUnprocessableEntity : Z := 422.
Definition StatusInternalServerError : Z := 500.
Definition StatusServiceUnavailable : Z := 503.

(** The request as the router reads it. *)
Record Request := {
  Host : string;
  Authorization : option string;   (* the credentials header *)
  RawQuery : string;
  Body : string
}.
End http.

(** ** Interfaces for the code that is not in the router file *)

(** [RowIDFromHex] and [RowID.Hex] (storage layer). *)
Class RowIDCodec (RowID : Type) := {
  RowIDFromHex : string → result RowID;
  Hex : RowID → string
}.

(** gin's binding of a request body or query string to a Go struct. *)
Class Binding (T : Type) := {
  bindJSON : string → result T;
  bindQuery : string → result T
}.

(** [TextSearch.isZero] and [RegexSearch.isZero]. *)
Class IsZero (T : Type) := isZero : T → bool.

(** [filepath.Join] and [filepath.Base] of the Go standard library. *)
Class Filepath := {
  filepath_Join : string → string → string;
  filepath_Base : string → string
}.

(** [strings.ToLower] of the Go standard library. *)
Class Strings := {
  strings_ToLower : string → string
}.

(** [secondsToNano], a constant of the package declared outside the router
    file. *)
Class Constants := {
  secondsToNano : Z
}.

(** Multiplication of two [time.Duration] values, which are [int64]: the
    product wraps around. *)
Definition int64_mul (a b : Z) : Z :=
  (a * b + 2 ^ 63) mod 2 ^ 64 - 2 ^ 63.

(** ** gin *)
Module gin.
(** The part of [gin.Context] a handler reads: the request and the path
    parameters.  What a handler writes lives in the [Exchange] below. *)
Record Context := {
  Request : http.Request;
  Params : gmap string string
}.

(** [c.Param(key)]: the empty string when the parameter is absent. *)
Definition Param (c : Context) (key : string) : string :=
  default "" (Params c !! key).

(** [multipart.FileHeader]: the router reads the file name. *)
Record FileHeader := {
  Filename : string
}.

(** The parsing of a multipart request body behind [c.FormFile(name)] and
    [c.GetPostForm(key)]. *)
Class Forms := {
  parseFormFile : string → string → result FileHeader;
  parsePostForm : string → string → option string
}.

Definition FormFile `{!Forms} (c : Context) (name : string) : result FileHeader :=
  parseFormFile (http.Body (Request c)) name.

Definition GetPostForm `{!Forms} (c : Context) (key : string) : option string :=
  parsePostForm (http.Body (Request c)) key.
End gin.

(** [fmt.Sprintf("%v-%s", n, s)] for an [int64] and a string. *)
Definition Sprintf_v_s (n : Z) (s : string) : string :=
  pretty n +:+ "-" +:+ s.

(** Modelled from the spec: the reserved on-disk paths [PcapsBasePath] and
    [ProcessingPcapsBasePath], constants declared outside the router file
    ("pcaps/ - completed session PCAPs", "pcaps/processing/ -
    work-in-progress files"). *)
Definition PcapsBasePath : string := "pcaps/".
Definition ProcessingPcapsBasePath : string := "pcaps/processing/".

(** Modelled from the spec: [ConnectionPcapsBasePath], declared outside the
    router file ("connections/ - per-connection PCAP slices generated on
    demand"). *)
Definition ConnectionPcapsBasePath : string := "connections/".

(** ** Sessions and [cancel_session], from the specification *)

Section SessionsSpec.

Context {RowID : Type} `{!EqDecision RowID, !Countable RowID}.

(** Modelled from the spec: the session record of the importer, which is
    declared outside the router file ("Fields: id, started-at, completed-at
    (nullable), packets-read, packets-dropped, bytes-processed, source
    descriptor, cancelled flag"). *)
Record SpecSession := {
  session_id : RowID;
  started_at : Z;
  completed_at : option Z;
  packets_read : Z;
  packets_dropped : Z;
  bytes_processed : Z;
  source : string;
  cancelled : bool
}.

(** Modelled from the spec: a session is running until it is terminal
    ("terminal on completion or cancellation"). *)
Definition session_running (s : SpecSession) : bool :=
  match completed_at s with
  | Some _ => false
  | None => negb (cancelled s)
  end.

Definition mark_cancelled (s : SpecSession) : SpecSession :=
  {| session_id := session_id s; started_at := started_at s;
     completed_at := completed_at s; packets_read := packets_read s;
     packets_dropped := packets_dropped s; bytes_processed := bytes_processed s;
     source := source s; cancelled := true |}.

(** Modelled from the spec: [PcapImporter.CancelSession], whose code is
    outside the router file ("cancel_session(session_id) -> bool signals the
    worker to abort; returns true if a running session was cancelled"), over
    the importer's map of sessions keyed by session id. *)
Definition spec_cancel_session (id : RowID) (sessions : gmap RowID SpecSession)
    : bool * gmap RowID SpecSession :=
  match sessions !! id with
  | Some s =>
      if session_running s then (true, <[id := mark_cancelled s]> sessions)
      else (false, sessions)
  | None => (false, sessions)
  end.

End SessionsSpec.

Arguments SpecSession RowID : clear implicits.

(** The result of running a handler: it returns, or it panics. *)
Inductive res (A : Type) :=
  | Val (a : A)
  | Panic (msg : string).
Arguments Val {A} a.
Arguments Panic {A} msg.

(** The types declared outside the router file: the world [W] behind the
    controllers (storage, importer, file system, clock), the documents the
    controllers exchange, and the fields of [Config], [TextSearch],
    [RegexSearch] and [SearchOptions] that the router does not read. *)
Class Types := {
  W : Type;
  RowID : Type;
  Rule : Type;
  Session : Type;
  Connection : Type;
  Messages : Type;
  SearchResult : Type;
  GetMessageFormat : Type;
  DownloadMessageFormat : Type;
  StatusDocument : Type;
  Rules : Type;
  Sessions : Type;
  Connections : Type;
  ConnectionsFilter : Type;
  Searches : Type;
  CaptureOptions : Type;
  SSHConfig : Type;
  Interfaces : Type;
  Service : Type;
  Services : Type;
  StatisticsFilter : Type;
  Statistics : Type;
  TotalStatistics : Type;
  SystemStats : Type;
  ProcessStats : Type;
  ConfigRest : Type;
  TextRest : Type;
  RegexRest : Type;
  OptionsRest : Type
}.

Section Router.

Context `{types : Types}.

(** *** Data the router reads field by field *)

(** [Config]: the router reads [AuthRequired] only. *)
Record Config := {
  AuthRequired : bool;
  Config_rest : ConfigRest
}.

(** [*ApplicationContext]: the fields the router reads.  The field holding the
    configuration is [Config] in Go. *)
Record ApplicationContext := {
  Config_ : Config;
  Accounts : gmap string string;      (* gin.Accounts *)
  IsConfigured : bool
}.

(** [TextSearch]: a nil slice is [None]. *)
Record TextSearch := {
  Terms : option (list string);
  ExcludedTerms : option (list string);
  ExactPhrase : string;
  TextSearch_rest : TextRest
}.

Record RegexSearch := {
  Pattern : string;
  NotPattern : string;
  RegexSearch_rest : RegexRest
}.

Record SearchOptions := {
  TextSearch_ : TextSearch;
  RegexSearch_ : RegexSearch;
  SearchOptions_rest : OptionsRest
}.

(** The body of POST /setup. *)
Record Settings := {
  settings_Config : Config;
  settings_Accounts : gmap string string
}.

(** The body of POST /api/pcap/file. *)
Record PcapFileRequest := {
  File : string;
  FlushAll : bool;
  DeleteOriginalFile : bool
}.

(** The body of POST /api/connections/:id/comment. *)
Record CommentBody := {
  Comment : string
}.

(** The body of PUT /api/capture/interval. *)
Record IntervalRequest := {
  RotationInterval : Z
}.

(** The body of PUT /api/capture/remote. *)
Record RemoteCaptureRequest := {
  request_SSHConfig : SSHConfig;
  request_CaptureOptions : CaptureOptions
}.

(** *** What a handler writes *)

(** Values stored in [gin.H] and [UnorderedDocument] literals. *)
Inductive Value :=
  | VString (s : string)
  | VRowID (id : RowID).

(** The [obj any] handed to [c.JSON]. *)
Inductive Obj :=
  | H (fields : gmap string Value)      (* gin.H{...}, UnorderedDocument{...} *)
  | ORule (rule : Rule)
  | OSession (session : Session)
  | OConnection (connection : Connection)
  | OMessages (messages : Messages)
  | OSearch (search : SearchResult)
  | OStatus (status : StatusDocument)
  | ORules (rules : Rules)
  | OSessions (sessions : Sessions)
  | OConnections (connections : Connections)
  | OSearches (searches : Searches)
  | OInterfaces (interfaces : Interfaces)
  | OService (service : Service)
  | OServices (services : Services)
  | OStatistics (statistics : Statistics)
  | OTotalStatistics (totals : TotalStatistics)
  | OSystemStats (stats : SystemStats)
  | OProcessStats (stats : ProcessStats).

Inductive Written :=
  | JSON (code : Z) (obj : Obj)                      (* c.JSON *)
  | StatusCode (code : Z)                            (* c.AbortWithStatus *)
  | Text (code : Z) (text : string)                  (* c.String *)
  | ServedFile (filepath : string)                   (* c.File *)
  | FileAttachment (filepath filename : string).     (* c.FileAttachment *)

(** Calls that leave the router, in the order they are made. *)
Inductive Event :=
  | EvNotify (event : string) (payload : Obj)
  | EvSetConfig (config : Config)
  | EvSetAccounts (accounts : gmap string string)
  | EvAddRule (rule : Rule)
  | EvGetRule (id : RowID)
  | EvUpdateRule (id : RowID) (rule : Rule)
  | EvImportPcap (fileName : string) (flushAll : bool)
  | EvGetSession (id : RowID)
  | EvCancelSession (id : RowID)
  | EvGetConnection (id : RowID)
  | EvSetHidden (id : RowID) (hidden : bool)
  | EvSetMarked (id : RowID) (marked : bool)
  | EvSetComment (id : RowID) (comment : string)
  | EvPerformSearch (options : SearchOptions)
  | EvGetConnectionMessages (id : RowID) (format : GetMessageFormat)
  | EvFileExists (path : string)
  | EvCopyFile (dst src : string)
  | EvRemove (path : string)
  | EvNow
  | EvNotificationHandler
  | EvStatus
  | EvGetRules
  | EvSaveUploadedFile (file : gin.FileHeader) (dst : string)
  | EvStartLocalCapture (options : CaptureOptions)
  | EvStopCapture
  | EvListInterfaces
  | EvSetSessionRotationInterval (interval : Z)
  | EvStartRemoteCapture (ssh : SSHConfig) (options : CaptureOptions)
  | EvListRemoteInterfaces (ssh : SSHConfig)
  | EvGetSessions
  | EvGetConnections (filter : ConnectionsFilter)
  | EvGetPerformedSearches
  | EvDownloadConnectionMessages (id : RowID) (format : DownloadMessageFormat)
  | EvGetServices
  | EvSetService (service : Service)
  | EvDeleteService (service : Service)
  | EvGetStatistics (filter : StatisticsFilter)
  | EvGetTotalStatistics (filter : StatisticsFilter)
  | EvGetSystemStats
  | EvGetProcessStats.

(** *** The controllers, as interfaces over the world

    A method that the router calls with the gin context ([AddRule(c, rule)],
    [SetHidden(c, id, true)], ...) takes it here as well, before its other
    arguments. *)

Class ApplicationContextMethods := {
  SetConfig : Config → ApplicationContext * W → ApplicationContext * W;
  SetAccounts : gmap string string → ApplicationContext * W → ApplicationContext * W;
  Status : ApplicationContext → W → StatusDocument
}.

Class NotificationController := {
  NotificationHandler : gin.Context → W → option error * W
}.

Class RulesManager := {
  AddRule : gin.Context → Rule → W → result RowID * W;
  GetRule : RowID → W → option Rule;
  GetRules : W → Rules;
  UpdateRule : gin.Context → RowID → Rule → W → result bool * W
}.

Class PcapImporter := {
  ImportPcap : string → bool → W → result RowID * W;
  GetSession : RowID → W → option Session;
  GetSessions : W → Sessions;
  CancelSession : RowID → W → bool * W;
  StartLocalCapture : CaptureOptions → W → option error * W;
  StartRemoteCapture : SSHConfig → CaptureOptions → W → option error * W;
  StopCapture : W → option error * W;
  ListInterfaces : W → result Interfaces * W;
  ListRemoteInterfaces : SSHConfig → W → result Interfaces * W;
  SetSessionRotationInterval : Z → W → W
}.

Class ConnectionsController := {
  GetConnections : gin.Context → ConnectionsFilter → W → Connections;
  GetConnection : gin.Context → RowID → W → option Connection;
  SetHidden : gin.Context → RowID → bool → W → bool * W;
  SetMarked : gin.Context → RowID → bool → W → bool * W;
  SetComment : gin.Context → RowID → string → W → bool * W
}.

Class SearchController := {
  GetPerformedSearches : W → Searches;
  PerformSearch : gin.Context → SearchOptions → W → SearchResult * W
}.

Class ConnectionStreamsController := {
  GetConnectionMessages : gin.Context → RowID → GetMessageFormat → W → option Messages;
  DownloadConnectionMessages : gin.Context → RowID → DownloadMessageFormat → W → option string
}.

Class ServicesController := {
  GetServices : W → Services;
  SetService : gin.Context → Service → W → option error * W;
  DeleteService : gin.Context → Service → W → option error * W
}.

Class StatisticsController := {
  GetStatistics : gin.Context → StatisticsFilter → W → Statistics;
  GetTotalStatistics : gin.Context → StatisticsFilter → W → TotalStatistics
}.

Class ResourcesController := {
  GetSystemStats : gin.Context → W → SystemStats;
  GetProcessStats : gin.Context → W → ProcessStats
}.

(** [FileExists], [CopyFile] (utilities of the repository), [os.Remove],
    [c.SaveUploadedFile] and [time.Now().UnixNano()]. *)
Class System := {
  FileExists : string → W → bool;
  CopyFile : string → string → W → option error * W;
  os_Remove : string → W → option error * W;
  SaveUploadedFile : gin.FileHeader → string → W → option error * W;
  Now_UnixNano : W → Z * W
}.

(** *** The handler monad *)

Record Exchange := {
  app : ApplicationContext;      (* the shared *ApplicationContext *)
  world : W;
  written : list Written;        (* c.Writer, oldest first *)
  aborted : bool;                (* c.Abort() was called *)
  finished : bool;               (* c.index ran past the last handler *)
  trace : list Event
}.

Definition M (A : Type) : Type := Exchange → res A * Exchange.

#[global] Instance M_ret : MRet M := λ A a x, (Val a, x).

#[global] Instance M_bind : MBind M := λ A B f m x,
  match m x with
  | (Val a, x') => f a x'
  | (Panic msg, x') => (Panic msg, x')
  end.

Definition panic {A} (msg : string) : M A := λ x, (Panic msg, x).

Definition write (w : Written) : M unit := λ x,
  (Val tt, {| app := app x; world := world x; written := written x ++ [w];
              aborted := aborted x; finished := finished x; trace := trace x |}).

Definition emit (ev : Event) : M unit := λ x,
  (Val tt, {| app := app x; world := world x; written := written x;
              aborted := aborted x; finished := finished x;
              trace := trace x ++ [ev] |}).

Definition set_world (w : W) : M unit := λ x,
  (Val tt, {| app := app x; world := w; written := written x;
              aborted := aborted x; finished := finished x; trace := trace x |}).

Definition set_app (a : ApplicationContext) : M unit := λ x,
  (Val tt, {| app := a; world := world x; written := written x;
              aborted := aborted x; finished := finished x; trace := trace x |}).

Definition get_world : M W := λ x, (Val (world x), x).
Definition get_app : M ApplicationContext := λ x, (Val (app x), x).

(** A call that may change the world, and one that only reads it. *)
Definition call {A} (ev : Event) (op : W → A * W) : M A :=
  emit ev;; w ← get_world; set_world (op w).2;; mret (op w).1.

Definition query {A} (ev : Event) (op : W → A) : M A :=
  emit ev;; w ← get_world; mret (op w).

(** [c.Abort()] and the end of the handler chain. *)
Definition Abort : M unit := λ x,
  (Val tt, {| app := app x; world := world x; written := written x;
              aborted := true; finished := finished x; trace := trace x |}).

Definition finish : M unit := λ x,
  (Val tt, {| app := app x; world := world x; written := written x;
              aborted := aborted x; finished := true; trace := trace x |}).

Definition stopped : M bool := λ x, (Val (aborted x || finished x), x).

Definition c_JSON (code : Z) (obj : Obj) : M unit := write (JSON code obj).
Definition c_AbortWithStatus (code : Z) : M unit := write (StatusCode code);; Abort.
Definition c_AbortWithStatusJSON (code : Z) (obj : Obj) : M unit :=
  Abort;; c_JSON code obj.
Definition c_FileAttachment (filepath filename : string) : M unit :=
  write (FileAttachment filepath filename).
Definition c_File (filepath : string) : M unit := write (ServedFile filepath).
Definition c_String (code : Z) (text : string) : M unit := write (Text code text).

(** [notificationController.Notify]. *)
Definition Notify (event : string) (payload : Obj) : M unit :=
  emit (EvNotify event payload).

(** [c.ShouldBindJSON(&v)] and [c.ShouldBindQuery(&v)]. *)
Definition ShouldBindJSON {T} `{!Binding T} (c : gin.Context) : result T :=
  bindJSON (http.Body (gin.Request c)).
Definition ShouldBindQuery {T} `{!Binding T} (c : gin.Context) : result T :=
  bindQuery (http.RawQuery (gin.Request c)).

(** *** The response helpers at the end of the router file *)

Definition error_document (err : error) : Obj :=
  H {[ "result" := VString "error"; "error" := VString err ]}.

Definition success (obj : Obj) : M unit := c_JSON http.StatusOK obj.
Definition badRequest (err : error) : M unit :=
  c_JSON http.StatusBadRequest (error_document err).
Definition unprocessableEntity (err : error) : M unit :=
  c_JSON http.StatusUnprocessableEntity (error_document err).
Definition notFound (obj : Obj) : M unit := c_JSON http.StatusNotFound obj.
Definition serverError (err : error) : M unit :=
  c_JSON http.StatusInternalServerError (error_document err).


(** *** Handler chains

    A [gin.HandlerFunc] receives [c.Next] as its first argument; a route
    handler never calls it. *)
Definition HandlerFunc : Type := M unit → gin.Context → M unit.

Definition route (h : gin.Context → M unit) : HandlerFunc := λ _ c, h c.

(** [gin.BasicAuth] of the gin library. *)
Class GinBasicAuth := BasicAuth : gmap string string → HandlerFunc.

(** The loop of [c.Next()]: run the handlers that are left, one after the
    other, until one of them aborts or has itself run the rest through
    [c.Next()]. *)
Fixpoint run_handlers (handlers : list HandlerFunc) (c : gin.Context) : M unit :=
  match handlers with
  | [] => finish
  | h :: rest =>
      let Next : M unit :=
        stop ← stopped; if stop : bool then mret tt else run_handlers rest c in
      h Next c;; Next
  end.

(** The exchange of a request that just arrived: nothing written, nothing
    called yet. *)
Definition fresh (a : ApplicationContext) (w : W) : Exchange :=
  {| app := a; world := w; written := []; aborted := false;
     finished := false; trace := [] |}.

(** One request served by a chain of handlers. *)
Definition serve (handlers : list HandlerFunc) (c : gin.Context)
    (a : ApplicationContext) (w : W) : res unit * Exchange :=
  run_handlers handlers c (fresh a w).

Context `{!RowIDCodec RowID, !Filepath, !Strings, !Constants, !gin.Forms}.
Context `{!ApplicationContextMethods, !NotificationController}.
Context `{!RulesManager, !PcapImporter}.
Context `{!ConnectionsController, !SearchController}.
Context `{!ConnectionStreamsController, !ServicesController}.
Context `{!StatisticsController, !ResourcesController}.
Context `{!System, !GinBasicAuth}.
Context `{!IsZero TextSearch, !IsZero RegexSearch}.
Context `{!Binding Settings, !Binding Rule, !Binding PcapFileRequest}.
Context `{!Binding SearchOptions, !Binding GetMessageFormat}.
Context `{!Binding CommentBody, !Binding DownloadMessageFormat}.
Context `{!Binding CaptureOptions, !Binding SSHConfig}.
Context `{!Binding IntervalRequest, !Binding RemoteCaptureRequest}.
Context `{!Binding ConnectionsFilter, !Binding Service}.
Context `{!Binding StatisticsFilter}.

(** *** The middlewares *)

Definition SetupRequiredMiddleware : HandlerFunc := λ Next c,
  applicationContext ← get_app;
  if negb (IsConfigured applicationContext) then
    c_AbortWithStatusJSON http.StatusServiceUnavailable
      (H {[ "error" := VString "setup required";
            "url" := VString (http.Host (gin.Request c) +:+ "/setup") ]})
  else Next.

Definition AuthRequiredMiddleware : HandlerFunc := λ Next c,
  applicationContext ← get_app;
  if negb (AuthRequired (Config_ applicationContext)) then Next
  else BasicAuth (Accounts applicationContext) Next c.

(** The handlers of a route registered on the [/api] group. *)
Definition api (h : gin.Context → M unit) : list HandlerFunc :=
  [SetupRequiredMiddleware; AuthRequiredMiddleware; route h].

(** *** router.POST("/setup") *)

Definition applicationContext_SetConfig (config : Config) : M unit :=
  emit (EvSetConfig config);;
  a ← get_app; w ← get_world;
  set_app (SetConfig config (a, w)).1;; set_world (SetConfig config (a, w)).2.

Definition applicationContext_SetAccounts (accounts : gmap string string) : M unit :=
  emit (EvSetAccounts accounts);;
  a ← get_app; w ← get_world;
  set_app (SetAccounts accounts (a, w)).1;; set_world (SetAccounts accounts (a, w)).2.

Definition POST_setup (c : gin.Context) : M unit :=
  applicationContext ← get_app;
  if IsConfigured applicationContext then c_AbortWithStatus http.StatusNotFound
  else
    match ShouldBindJSON c with
    | Err err => badRequest err
    | Ok settings =>
        applicationContext_SetConfig (settings_Config settings);;
        applicationContext_SetAccounts (settings_Accounts settings);;
        c_JSON http.StatusAccepted (H ∅);;
        Notify "setup" (H ∅)
    end.

(** *** api.POST("/rules") *)

Definition POST_rules (c : gin.Context) : M unit :=
  match ShouldBindJSON c with
  | Err err => badRequest err
  | Ok rule =>
      r ← call (EvAddRule rule) (AddRule c rule);
      match r with
      | Err err => unprocessableEntity err
      | Ok id =>
          let response := H {[ "id" := VRowID id ]} in
          success response;;
          Notify "rules.new" response
      end
  end.

(** *** api.GET("/rules/:id") *)

Definition GET_rules_id (c : gin.Context) : M unit :=
  let hex := gin.Param c "id" in
  match RowIDFromHex hex with
  | Err err => badRequest err
  | Ok id =>
      r ← query (EvGetRule id) (GetRule id);
      match r with
      | None => notFound (H {[ "error" := VString "not found"; "id" := VRowID id ]})
      | Some rule => success (ORule rule)
      end
  end.

(** *** api.PUT("/rules/:id") *)

Definition PUT_rules_id (c : gin.Context) : M unit :=
  let hex := gin.Param c "id" in
  match RowIDFromHex hex with
  | Err err => badRequest err
  | Ok id =>
      match ShouldBindJSON c with
      | Err err => badRequest err
      | Ok rule =>
          r ← call (EvUpdateRule id rule) (UpdateRule c id rule);
          match r with
          | Err err => badRequest err
          | Ok false =>
              notFound (H {[ "error" := VString "not found"; "id" := VRowID id ]})
          | Ok true =>
              success (ORule rule);;
              Notify "rules.edit" (ORule rule)
          end
      end
  end.

(** *** api.POST("/pcap/file") *)

Definition POST_pcap_file (c : gin.Context) : M unit :=
  match ShouldBindJSON c with
  | Err err => badRequest err
  | Ok request =>
      fileExists ← query (EvFileExists (File request)) (FileExists (File request));
      if negb fileExists then badRequest "file not exists"
      else
        now ← call EvNow Now_UnixNano;
        let fileName := Sprintf_v_s now (filepath_Base (File request)) in
        let dst := filepath_Join ProcessingPcapsBasePath fileName in
        copied ← call (EvCopyFile dst (File request)) (CopyFile dst (File request));
        match copied with
        | Some _ => panic "failed to copy pcap file"
        | None => mret tt
        end;;
        r ← call (EvImportPcap fileName (FlushAll request))
                 (ImportPcap fileName (FlushAll request));
        match r with
        | Err err =>
            (if DeleteOriginalFile request then
               removed ← call (EvRemove (File request)) (os_Remove (File request));
               match removed with
               | Some _ => panic "failed to remove processed file"
               | None => mret tt
               end
             else mret tt);;
            unprocessableEntity err
        | Ok sessionID =>
            let response := H {[ "session" := VString (Hex sessionID) ]} in
            c_JSON http.StatusAccepted response;;
            Notify "pcap.file" response
        end
  end.

(** *** api.GET("/pcap/sessions/:id") *)

Definition GET_pcap_sessions_id (c : gin.Context) : M unit :=
  match RowIDFromHex (gin.Param c "id") with
  | Err err => badRequest err
  | Ok sessionID =>
      r ← query (EvGetSession sessionID) (GetSession sessionID);
      match r with
      | Some session => success (OSession session)
      | None =>
          notFound (H {[ "error" := VString "not found";
                         "session" := VRowID sessionID ]})
      end
  end.

(** *** api.GET("/pcap/sessions/:id/download")

    The two early [return]s of the Go handler are the [true] results of the
    inner computation; every other path falls through to [notFound]. *)

Definition GET_pcap_sessions_id_download (c : gin.Context) : M unit :=
  match RowIDFromHex (gin.Param c "id") with
  | Err err => badRequest err
  | Ok sessionID =>
      r ← query (EvGetSession sessionID) (GetSession sessionID);
      returned ←
        match r with
        | Some _ =>
            let pcapPath := filepath_Join PcapsBasePath (Hex sessionID +:+ ".pcap") in
            let pcapngPath := filepath_Join PcapsBasePath (Hex sessionID +:+ ".pcapng") in
            isPcap ← query (EvFileExists pcapPath) (FileExists pcapPath);
            if isPcap : bool then
              c_FileAttachment pcapPath (Hex sessionID +:+ ".pcap");; mret true
            else
              isPcapng ← query (EvFileExists pcapngPath) (FileExists pcapngPath);
              if isPcapng : bool then
                c_FileAttachment pcapngPath (Hex sessionID +:+ ".pcapng");; mret true
              else mret false
        | None => mret false
        end;
      if returned : bool then mret tt
      else notFound (H {[ "error" := VString "not found";
                          "session" := VRowID sessionID ]})
  end.

(** *** api.DELETE("/pcap/sessions/:id") *)

Definition DELETE_pcap_sessions_id (c : gin.Context) : M unit :=
  match RowIDFromHex (gin.Param c "id") with
  | Err err => badRequest err
  | Ok sessionID =>
      let session := H {[ "session" := VString (Hex sessionID) ]} in
      cancelled ← call (EvCancelSession sessionID) (CancelSession sessionID);
      if cancelled : bool then
        c_JSON http.StatusAccepted session;;
        Notify "sessions.delete" session
      else notFound session
  end.

(** *** api.GET("/connections/:id") *)

Definition GET_connections_id (c : gin.Context) : M unit :=
  match RowIDFromHex (gin.Param c "id") with
  | Err err => badRequest err
  | Ok id =>
      r ← query (EvGetConnection id) (GetConnection c id);
      match r with
      | Some connection => success (OConnection connection)
      | None =>
          notFound (H {[ "error" := VString "not found"; "connection" := VRowID id ]})
      end
  end.

(** *** api.POST("/connections/:id/:action")

    The [switch] yields [Some result] when a controller was called and [None]
    on the two paths that answer and [return] inside it. *)

Definition POST_connections_id_action (c : gin.Context) : M unit :=
  match RowIDFromHex (gin.Param c "id") with
  | Err err => badRequest err
  | Ok id =>
      let action := gin.Param c "action" in
      switch ←
        (if String.eqb action "hide" then
           result ← call (EvSetHidden id true) (SetHidden c id true); mret (Some result)
         else if String.eqb action "show" then
           result ← call (EvSetHidden id false) (SetHidden c id false); mret (Some result)
         else if String.eqb action "mark" then
           result ← call (EvSetMarked id true) (SetMarked c id true); mret (Some result)
         else if String.eqb action "unmark" then
           result ← call (EvSetMarked id false) (SetMarked c id false); mret (Some result)
         else if String.eqb action "comment" then
           match ShouldBindJSON c with
           | Err err => badRequest err;; mret None
           | Ok comment =>
               result ← call (EvSetComment id (Comment comment))
                             (SetComment c id (Comment comment));
               mret (Some result)
           end
         else badRequest "invalid action";; mret None);
      match switch with
      | None => mret tt
      | Some true =>
          let response := H {[ "connection_id" := VString (gin.Param c "id");
                               "action" := VString (gin.Param c "action") ]} in
          success response;;
          Notify "connections.action" response
      | Some false =>
          notFound (H {[ "error" := VString "not found"; "connection" := VRowID id ]})
      end
  end.

(** *** api.POST("/searches/perform")

    [badContentError] is assigned by up to four checks in turn; the last
    assignment wins. *)

Definition is_nil {A} (slice : option (list A)) : bool :=
  match slice with None => true | Some _ => false end.

Definition search_badContentError (options : SearchOptions) : option error :=
  let badContentError : option error := None in
  let badContentError :=
    if Bool.eqb (isZero (TextSearch_ options)) (isZero (RegexSearch_ options))
    then Some "specify either 'text_search' or 'regex_search'"
    else badContentError in
  let badContentError :=
    if negb (isZero (TextSearch_ options)) then
      let badContentError :=
        if Bool.eqb (is_nil (Terms (TextSearch_ options)))
                    (String.eqb (ExactPhrase (TextSearch_ options)) "")
        then Some "specify either 'terms' or 'exact_phrase'"
        else badContentError in
      if is_nil (Terms (TextSearch_ options))
         && negb (is_nil (ExcludedTerms (TextSearch_ options)))
      then Some "'excluded_terms' must be specified only with 'terms'"
      else badContentError
    else badContentError in
  let badContentError :=
    if negb (isZero (RegexSearch_ options)) then
      if Bool.eqb (String.eqb (Pattern (RegexSearch_ options)) "")
                  (String.eqb (NotPattern (RegexSearch_ options)) "")
      then Some "specify either 'pattern' or 'not_pattern'"
      else badContentError
    else badContentError in
  badContentError.

Definition POST_searches_perform (c : gin.Context) : M unit :=
  match ShouldBindJSON c with
  | Err err => badRequest err
  | Ok options =>
      match search_badContentError options with
      | Some badContentError => badRequest badContentError
      | None =>
          r ← call (EvPerformSearch options) (PerformSearch c options);
          success (OSearch r)
      end
  end.

(** *** api.GET("/streams/:id") *)

Definition GET_streams_id (c : gin.Context) : M unit :=
  match RowIDFromHex (gin.Param c "id") with
  | Err err => badRequest err
  | Ok id =>
      match ShouldBindQuery c with
      | Err err => badRequest err
      | Ok format =>
          r ← query (EvGetConnectionMessages id format) (GetConnectionMessages c id format);
          match r with
          | None =>
              notFound (H {[ "error" := VString "not found"; "connection" := VRowID id ]})
          | Some messages => success (OMessages messages)
          end
      end
  end.

(** *** The remaining routes, in the order of the router file *)

(** router.GET(path) for the pages of the web application. *)
Definition index_paths : list string :=
  ["/connections/:id"; "/pcaps"; "/rules"; "/services"; "/stats"; "/searches";
   "/capture"].

Definition GET_index (c : gin.Context) : M unit :=
  c_File "./web/build/index.html".

(** router.GET("/websocket") *)
Definition GET_websocket (c : gin.Context) : M unit :=
  r ← call EvNotificationHandler (NotificationHandler c);
  match r with
  | Some err => serverError err
  | None => mret tt
  end.

(** api.GET("/status") *)
Definition GET_status (c : gin.Context) : M unit :=
  applicationContext ← get_app;
  r ← query EvStatus (Status applicationContext);
  success (OStatus r).

(** api.GET("/rules") *)
Definition GET_rules (c : gin.Context) : M unit :=
  r ← query EvGetRules GetRules;
  success (ORules r).

(** api.POST("/pcap/upload") *)
Definition POST_pcap_upload (c : gin.Context) : M unit :=
  match gin.FormFile c "file" with
  | Err err => badRequest err
  | Ok fileHeader =>
      let flushAll :=
        match gin.GetPostForm c "flush_all" with
        | Some flushAllValue => String.eqb (strings_ToLower flushAllValue) "true"
        | None => false
        end in
      now ← call EvNow Now_UnixNano;
      let fileName := Sprintf_v_s now (gin.Filename fileHeader) in
      let dst := filepath_Join ProcessingPcapsBasePath fileName in
      saved ← call (EvSaveUploadedFile fileHeader dst) (SaveUploadedFile fileHeader dst);
      match saved with
      | Some _ => panic "failed to save uploaded file"
      | None => mret tt
      end;;
      r ← call (EvImportPcap fileName flushAll) (ImportPcap fileName flushAll);
      match r with
      | Err err => unprocessableEntity err
      | Ok sessionID =>
          let response := H {[ "session" := VString (Hex sessionID) ]} in
          c_JSON http.StatusAccepted response;;
          Notify "pcap.upload" response
      end
  end.

(** api.PUT("/capture/local") *)
Definition PUT_capture_local (c : gin.Context) : M unit :=
  match ShouldBindJSON c with
  | Err err => badRequest err
  | Ok captureOptions =>
      r ← call (EvStartLocalCapture captureOptions) (StartLocalCapture captureOptions);
      match r with
      | Some err => badRequest err
      | None =>
          let response := H {[ "capture" := VString "local" ]} in
          c_JSON http.StatusOK response;;
          Notify "capture.local" response
      end
  end.

(** api.DELETE("/capture") *)
Definition DELETE_capture (c : gin.Context) : M unit :=
  r ← call EvStopCapture StopCapture;
  match r with
  | Some err => badRequest err
  | None =>
      let response := H {[ "capture" := VString "stop" ]} in
      c_JSON http.StatusOK response;;
      Notify "capture.stop" response
  end.

(** api.POST("/capture/local/interfaces") *)
Definition POST_capture_local_interfaces (c : gin.Context) : M unit :=
  r ← call EvListInterfaces ListInterfaces;
  match r with
  | Err err => badRequest err
  | Ok interfaces => c_JSON http.StatusOK (OInterfaces interfaces)
  end.

(** api.PUT("/capture/interval") *)
Definition PUT_capture_interval (c : gin.Context) : M unit :=
  match ShouldBindJSON c with
  | Err err => badRequest err
  | Ok request =>
      let interval := int64_mul (RotationInterval request) secondsToNano in
      call (EvSetSessionRotationInterval interval)
           (λ w, (tt, SetSessionRotationInterval interval w));;
      c_JSON http.StatusOK (H {[ "result" := VString "ok" ]})
  end.

(** api.PUT("/capture/remote") *)
Definition PUT_capture_remote (c : gin.Context) : M unit :=
  match ShouldBindJSON c with
  | Err err => badRequest err
  | Ok request =>
      r ← call (EvStartRemoteCapture (request_SSHConfig request)
                  (request_CaptureOptions request))
               (StartRemoteCapture (request_SSHConfig request)
                  (request_CaptureOptions request));
      match r with
      | Some err => badRequest err
      | None =>
          let response := H {[ "capture" := VString "remote" ]} in
          c_JSON http.StatusOK response;;
          Notify "capture.remote" response
      end
  end.

(** api.POST("/capture/remote/interfaces") *)
Definition POST_capture_remote_interfaces (c : gin.Context) : M unit :=
  match ShouldBindJSON c with
  | Err err => badRequest err
  | Ok sshConfig =>
      r ← call (EvListRemoteInterfaces sshConfig) (ListRemoteInterfaces sshConfig);
      match r with
      | Err err => badRequest err
      | Ok interfaces => c_JSON http.StatusOK (OInterfaces interfaces)
      end
  end.

(** api.GET("/pcap/sessions") *)
Definition GET_pcap_sessions (c : gin.Context) : M unit :=
  r ← query EvGetSessions GetSessions;
  success (OSessions r).

(** api.GET("/pcap/connections/:id/download") *)
Definition GET_pcap_connections_id_download (c : gin.Context) : M unit :=
  match RowIDFromHex (gin.Param c "id") with
  | Err err => badRequest err
  | Ok connectionID =>
      let pcapPath :=
        filepath_Join ConnectionPcapsBasePath (Hex connectionID +:+ ".pcap") in
      isPcap ← query (EvFileExists pcapPath) (FileExists pcapPath);
      if isPcap : bool then c_FileAttachment pcapPath (Hex connectionID +:+ ".pcap")
      else notFound (H {[ "error" := VString "not found";
                          "connection" := VRowID connectionID ]})
  end.

(** api.GET("/connections") *)
Definition GET_connections (c : gin.Context) : M unit :=
  match ShouldBindQuery c with
  | Err err => badRequest err
  | Ok filter =>
      r ← query (EvGetConnections filter) (GetConnections c filter);
      success (OConnections r)
  end.

(** api.GET("/searches") *)
Definition GET_searches (c : gin.Context) : M unit :=
  r ← query EvGetPerformedSearches GetPerformedSearches;
  success (OSearches r).

(** api.GET("/streams/:id/download") *)
Definition GET_streams_id_download (c : gin.Context) : M unit :=
  match RowIDFromHex (gin.Param c "id") with
  | Err err => badRequest err
  | Ok id =>
      match ShouldBindQuery c with
      | Err err => badRequest err
      | Ok format =>
          r ← query (EvDownloadConnectionMessages id format)
                    (DownloadConnectionMessages c id format);
          match r with
          | None =>
              notFound (H {[ "error" := VString "not found"; "connection" := VRowID id ]})
          | Some blob => c_String http.StatusOK blob
          end
      end
  end.

(** api.GET("/services") *)
Definition GET_services (c : gin.Context) : M unit :=
  r ← query EvGetServices GetServices;
  success (OServices r).

(** api.PUT("/services") *)
Definition PUT_services (c : gin.Context) : M unit :=
  match ShouldBindJSON c with
  | Err err => badRequest err
  | Ok service =>
      r ← call (EvSetService service) (SetService c service);
      match r with
      | None => success (OService service);; Notify "services.edit" (OService service)
      | Some err => unprocessableEntity err
      end
  end.

(** api.DELETE("/services") *)
Definition DELETE_services (c : gin.Context) : M unit :=
  match ShouldBindJSON c with
  | Err err => badRequest err
  | Ok service =>
      r ← call (EvDeleteService service) (DeleteService c service);
      match r with
      | None => success (OService service);; Notify "services.edit" (OService service)
      | Some err => unprocessableEntity err
      end
  end.

(** api.GET("/statistics") *)
Definition GET_statistics (c : gin.Context) : M unit :=
  match ShouldBindQuery c with
  | Err err => badRequest err
  | Ok filter =>
      r ← query (EvGetStatistics filter) (GetStatistics c filter);
      success (OStatistics r)
  end.

(** api.GET("/statistics/totals") *)
Definition GET_statistics_totals (c : gin.Context) : M unit :=
  match ShouldBindQuery c with
  | Err err => badRequest err
  | Ok filter =>
      r ← query (EvGetTotalStatistics filter) (GetTotalStatistics c filter);
      success (OTotalStatistics r)
  end.

(** api.GET("/resources/system") and api.GET("/resources/process") *)
Definition GET_resources_system (c : gin.Context) : M unit :=
  r ← query EvGetSystemStats (GetSystemStats c);
  success (OSystemStats r).

Definition GET_resources_process (c : gin.Context) : M unit :=
  r ← query EvGetProcessStats (GetProcessStats c);
  success (OProcessStats r).

(** *** The routes of [CreateApplicationRouter]

    Each route with its method, its path and its handler: first the routes
    registered on the router itself, then those registered on the [/api]
    group, with the paths as they are registered and as they are served. *)

Inductive Method := GET | POST | PUT | DELETE.

Definition router_routes : list (Method * string * (gin.Context → M unit)) :=
  ((λ path, (GET, path, GET_index)) <$> index_paths)
  ++ [ (POST, "/setup", POST_setup);
       (GET, "/websocket", GET_websocket) ].

Definition api_group : list (Method * string * (gin.Context → M unit)) :=
  [ (GET, "/status", GET_status);
    (GET, "/rules", GET_rules);
    (POST, "/rules", POST_rules);
    (GET, "/rules/:id", GET_rules_id);
    (PUT, "/rules/:id", PUT_rules_id);
    (POST, "/pcap/upload", POST_pcap_upload);
    (POST, "/pcap/file", POST_pcap_file);
    (PUT, "/capture/local", PUT_capture_local);
    (DELETE, "/capture", DELETE_capture);
    (POST, "/capture/local/interfaces", POST_capture_local_interfaces);
    (PUT, "/capture/interval", PUT_capture_interval);
    (PUT, "/capture/remote", PUT_capture_remote);
    (POST, "/capture/remote/interfaces", POST_capture_remote_interfaces);
    (GET, "/pcap/sessions", GET_pcap_sessions);
    (GET, "/pcap/sessions/:id", GET_pcap_sessions_id);
    (GET, "/pcap/sessions/:id/download", GET_pcap_sessions_id_download);
    (DELETE, "/pcap/sessions/:id", DELETE_pcap_sessions_id);
    (GET, "/pcap/connections/:id/download", GET_pcap_connections_id_download);
    (GET, "/connections", GET_connections);
    (GET, "/connections/:id", GET_connections_id);
    (POST, "/connections/:id/:action", POST_connections_id_action);
    (GET, "/searches", GET_searches);
    (POST, "/searches/perform", POST_searches_perform);
    (GET, "/streams/:id", GET_streams_id);
    (GET, "/streams/:id/download", GET_streams_id_download);
    (GET, "/services", GET_services);
    (PUT, "/services", PUT_services);
    (DELETE, "/services", DELETE_services);
    (GET, "/statistics", GET_statistics);
    (GET, "/statistics/totals", GET_statistics_totals);
    (GET, "/resources/system", GET_resources_system);
    (GET, "/resources/process", GET_resources_process) ].

Definition api_routes : list (Method * string * (gin.Context → M unit)) :=
  (λ r, (r.1.1, "/api" +:+ r.1.2, r.2)) <$> api_group.

(** A call that changes a stored connection: the setters of the
    ConnectionsController. *)
Definition connection_mutation (ev : Event) : bool :=
  match ev with
  | EvSetHidden _ _ | EvSetMarked _ _ | EvSetComment _ _ => true
  | _ => false
  end.

(** *** Observations on an exchange *)

(** The notifications sent, in order. *)
Definition notifications (tr : list Event) : list (string * Obj) :=
  omap (λ ev, match ev with EvNotify event payload => Some (event, payload) | _ => None end) tr.

(** The calls to controllers, file system and clock, in order. *)
Definition calls (tr : list Event) : list Event :=
  omap (λ ev, match ev with EvNotify _ _ => None | _ => Some ev end) tr.

(** The status codes written. *)
Definition statuses (ws : list Written) : list Z :=
  omap (λ w, match w with
             | JSON code _ => Some code
             | StatusCode code => Some code
             | Text code _ => Some code
             | ServedFile _ => None
             | FileAttachment _ _ => None
             end) ws.

(** The same request with other credentials. *)
Definition with_credentials (credentials : option string) (c : gin.Context) : gin.Context :=
  {| gin.Request :=
       {| http.Host := http.Host (gin.Request c);
          http.Authorization := credentials;
          http.RawQuery := http.RawQuery (gin.Request c);
          http.Body := http.Body (gin.Request c) |};
     gin.Params := gin.Params c |}.

(** The controllers that are handed the gin context do not read the
    credentials of its request: called with the same request under other
    credentials, each of them returns the same and leaves the same world.
    The controllers are not part of the router file; this is what the router
    needs of them for two requests that differ in their credentials only. *)
Definition credential_blind_controllers : Prop :=
  (∀ credentials c rule w,
     AddRule (with_credentials credentials c) rule w = AddRule c rule w)
  ∧ (∀ credentials c id rule w,
       UpdateRule (with_credentials credentials c) id rule w = UpdateRule c id rule w)
  ∧ (∀ credentials c filter w,
       GetConnections (with_credentials credentials c) filter w = GetConnections c filter w)
  ∧ (∀ credentials c id w,
       GetConnection (with_credentials credentials c) id w = GetConnection c id w)
  ∧ (∀ credentials c id value w,
       SetHidden (with_credentials credentials c) id value w = SetHidden c id value w)
  ∧ (∀ credentials c id value w,
       SetMarked (with_credentials credentials c) id value w = SetMarked c id value w)
  ∧ (∀ credentials c id value w,
       SetComment (with_credentials credentials c) id value w = SetComment c id value w)
  ∧ (∀ credentials c options w,
       PerformSearch (with_credentials credentials c) options w = PerformSearch c options w)
  ∧ (∀ credentials c id format w,
       GetConnectionMessages (with_credentials credentials c) id format w
       = GetConnectionMessages c id format w)
  ∧ (∀ credentials c id format w,
       DownloadConnectionMessages (with_credentials credentials c) id format w
       = DownloadConnectionMessages c id format w)
  ∧ (∀ credentials c service w,
       SetService (with_credentials credentials c) service w = SetService c service w)
  ∧ (∀ credentials c service w,
       DeleteService (with_credentials credentials c) service w = DeleteService c service w)
  ∧ (∀ credentials c filter w,
       GetStatistics (with_credentials credentials c) filter w = GetStatistics c filter w)
  ∧ (∀ credentials c filter w,
       GetTotalStatistics (with_credentials credentials c) filter w
       = GetTotalStatistics c filter w)
  ∧ (∀ credentials c w,
       GetSystemStats (with_credentials credentials c) w = GetSystemStats c w)
  ∧ (∀ credentials c w,
       GetProcessStats (with_credentials credentials c) w = GetProcessStats c w).

(** *** The exclusivity rules of the search options, in the words of the
    specification

    Exactly one of [text_search] and [regex_search] is present; within
    [text_search] exactly one of [terms] and [exact_phrase] is present and
    [excluded_terms] appears only together with [terms]; within [regex_search]
    exactly one of [pattern] and [not_pattern] is present.  A struct is
    present when it is not zero, a slice when it is not nil, a string when it
    is not empty. *)

Definition exactly_one (a b : bool) : bool := xorb a b.

Definition slice_present {A} (slice : option (list A)) : bool :=
  match slice with Some _ => true | None => false end.

Definition string_present (s : string) : bool := negb (String.eqb s "").

Definition text_search_rules (t : TextSearch) : bool :=
  exactly_one (slice_present (Terms t)) (string_present (ExactPhrase t))
  && implb (slice_present (ExcludedTerms t)) (slice_present (Terms t)).

Definition regex_search_rules (r : RegexSearch) : bool :=
  exactly_one (string_present (Pattern r)) (string_present (NotPattern r)).

Definition exclusivity_rules (options : SearchOptions) : bool :=
  let text_present := negb (isZero (TextSearch_ options)) in
  let regex_present := negb (isZero (RegexSearch_ options)) in
  exactly_one text_present regex_present
  && implb text_present (text_search_rules (TextSearch_ options))
  && implb regex_present (regex_search_rules (RegexSearch_ options)).

(** *** The outcomes of the action route *)

(** What POST /api/connections/:id/:action answers once a controller has
    returned [result]. *)
Definition action_answer (c : gin.Context) (id : RowID) (result : bool) : Written :=
  if result then
    JSON http.StatusOK
      (H {[ "connection_id" := VString (gin.Param c "id");
            "action" := VString (gin.Param c "action") ]})
  else
    JSON http.StatusNotFound
      (H {[ "error" := VString "not found"; "connection" := VRowID id ]}).

(** One controller call [ev] made through [op], then the answer. *)
Definition action_runs (c : gin.Context) (a : ApplicationContext) (w : W)
    (id : RowID) (ev : Event) (op : W → bool * W) : Prop :=
  let out := POST_connections_id_action c (fresh a w) in
  out.1 = Val tt
  ∧ calls (trace out.2) = [ev]
  ∧ world out.2 = (op w).2
  ∧ written out.2 = [action_answer c id (op w).1].

(** The request is refused with [err] before any controller is called. *)
Definition action_refused (c : gin.Context) (a : ApplicationContext) (w : W)
    (err : error) : Prop :=
  let out := POST_connections_id_action c (fresh a w) in
  out.1 = Val tt
  ∧ trace out.2 = []
  ∧ world out.2 = w
  ∧ written out.2 =
      [JSON http.StatusBadRequest
         (H {[ "result" := VString "error"; "error" := VString err ]})].

(** *** The importer and the specification of [cancel_session] *)

Context `{!EqDecision RowID, !Countable RowID}.

(** The importer behind the router implements [cancel_session] as the
    specification words it, on the sessions [sessions_of] reads off the
    world. *)
Definition implements_cancel_session
    (sessions_of : W → gmap RowID (SpecSession RowID)) : Prop :=
  ∀ id w,
    (CancelSession id w).1 = (spec_cancel_session id (sessions_of w)).1
    ∧ sessions_of (CancelSession id w).2 = (spec_cancel_session id (sessions_of w)).2.

End Router.

(** ** An in-memory instance of the interfaces

    Small implementations of the interfaces over an in-memory world.  They
    give the theorems below concrete requests to run on. *)
Module InMemory.

Record RuleDoc := { rule_name : string }.
Record Flags := { hidden : bool; marked : bool; comment : string }.
Record Format := { format : string }.
Record DownloadFormat := { download_format : string }.
Record Filter := { only_marked : bool }.
Record Capture := { interface : string }.
Record SSH := { host : string }.
Record ServiceDoc := { port : N; service_name : string }.
Record Window := { since : Z }.

Record World := {
  rules : gmap N RuleDoc;
  sessions : gmap N (SpecSession N);
  connections : gmap N Flags;
  services : gmap N string;
  files : gset string;
  capture : option string;         (* the interface being captured *)
  rotation : Z;
  clock : Z
}.

#[global] Instance types : Types := {|
  W := World; RowID := N; Rule := RuleDoc; Session := SpecSession N;
  Connection := Flags; Messages := list string; SearchResult := list N;
  GetMessageFormat := Format; DownloadMessageFormat := DownloadFormat;
  StatusDocument := bool; Rules := list RuleDoc; Sessions := list (SpecSession N);
  Connections := list Flags; ConnectionsFilter := Filter; Searches := list (list N);
  CaptureOptions := Capture; SSHConfig := SSH; Interfaces := list string;
  Service := ServiceDoc; Services := gmap N string; StatisticsFilter := Window;
  Statistics := list Z; TotalStatistics := Z; SystemStats := Z; ProcessStats := Z;
  ConfigRest := unit; TextRest := bool; RegexRest := bool; OptionsRest := unit
|}.

Definition with_rules (r : gmap N RuleDoc) (w : World) : World :=
  {| rules := r; sessions := sessions w; connections := connections w;
     services := services w; files := files w; capture := capture w;
     rotation := rotation w; clock := clock w |}.
Definition with_sessions (s : gmap N (SpecSession N)) (w : World) : World :=
  {| rules := rules w; sessions := s; connections := connections w;
     services := services w; files := files w; capture := capture w;
     rotation := rotation w; clock := clock w |}.
Definition with_connections (c : gmap N Flags) (w : World) : World :=
  {| rules := rules w; sessions := sessions w; connections := c;
     services := services w; files := files w; capture := capture w;
     rotation := rotation w; clock := clock w |}.
Definition with_services (s : gmap N string) (w : World) : World :=
  {| rules := rules w; sessions := sessions w; connections := connections w;
     services := s; files := files w; capture := capture w;
     rotation := rotation w; clock := clock w |}.
Definition with_files (f : gset string) (w : World) : World :=
  {| rules := rules w; sessions := sessions w; connections := connections w;
     services := services w; files := f; capture := capture w;
     rotation := rotation w; clock := clock w |}.
Definition with_capture (c : option string) (w : World) : World :=
  {| rules := rules w; sessions := sessions w; connections := connections w;
     services := services w; files := files w; capture := c;
     rotation := rotation w; clock := clock w |}.
Definition with_rotation (r : Z) (w : World) : World :=
  {| rules := rules w; sessions := sessions w; connections := connections w;
     services := services w; files := files w; capture := capture w;
     rotation := r; clock := clock w |}.
Definition with_clock (t : Z) (w : World) : World :=
  {| rules := rules w; sessions := sessions w; connections := connections w;
     services := services w; files := files w; capture := capture w;
     rotation := rotation w; clock := t |}.

(** Row ids as 24 hexadecimal digits. *)
Definition hex_value (a : Ascii.ascii) : option N :=
  let n := Ascii.N_of_ascii a in
  if ((48 <=? n) && (n <=? 57))%N then Some (n - 48)%N
  else if ((97 <=? n) && (n <=? 102))%N then Some (n - 87)%N
  else if ((65 <=? n) && (n <=? 70))%N then Some (n - 55)%N
  else None.

Fixpoint parse_hex (s : string) (acc : N) : option N :=
  match s with
  | EmptyString => Some acc
  | String a s' =>
      match hex_value a with
      | Some v => parse_hex s' (16 * acc + v)%N
      | None => None
      end
  end.

Definition hex_digit (n : N) : Ascii.ascii :=
  Ascii.ascii_of_N (if (n <? 10)%N then 48 + n else 87 + n)%N.

Fixpoint to_hex (digits : nat) (n : N) : string :=
  match digits with
  | O => ""
  | S d => to_hex d (n / 16)%N +:+ String (hex_digit (n mod 16)%N) ""
  end.

#[global] Instance codec : RowIDCodec N := {|
  RowIDFromHex s :=
    if (String.length s =? 24)%nat then
      match parse_hex s 0%N with
      | Some n => Ok n
      | None => Err "encoding/hex: invalid byte"
      end
    else Err "the provided hex string is not a valid ObjectID";
  Hex := to_hex 24
|}.

(** Joining a directory that ends in a slash with a file name, and the part
    of a path after its last slash. *)
Fixpoint base_of (path acc : string) : string :=
  match path with
  | EmptyString => acc
  | String a rest =>
      if Ascii.eqb a (Ascii.ascii_of_N 47) then base_of rest ""
      else base_of rest (acc +:+ String a "")
  end.

#[global] Instance paths : Filepath := {|
  filepath_Join dir name := dir +:+ name;
  filepath_Base path := base_of path ""
|}.

(** Lower case of the ASCII letters. *)
Fixpoint lower (s : string) : string :=
  match s with
  | EmptyString => ""
  | String a rest =>
      let n := Ascii.N_of_ascii a in
      String (if ((65 <=? n) && (n <=? 90))%N then Ascii.ascii_of_N (n + 32) else a)
             (lower rest)
  end.

#[global] Instance go_strings : Strings := {| strings_ToLower := lower |}.

#[global] Instance constants : Constants := {| secondsToNano := 1000000000 |}.

(** Bodies and query strings are written [key=value&key=value]. *)
Fixpoint split_on (sep : Ascii.ascii) (s acc : string) : list string :=
  match s with
  | EmptyString => [acc]
  | String a rest =>
      if Ascii.eqb a sep then acc :: split_on sep rest ""
      else split_on sep rest (acc +:+ String a "")
  end.

Definition fields_of (s : string) : list string :=
  if String.eqb s "" then [] else split_on (Ascii.ascii_of_N 38) s "".

Definition field (key : string) (fields : list string) : option string :=
  match List.find (String.prefix (key +:+ "=")) fields with
  | Some f => Some (String.substring (String.length key + 1) (String.length f) f)
  | None => None
  end.

#[global] Instance bind_Settings : Binding Settings := {|
  bindJSON body :=
    match field "password" (fields_of body) with
    | Some password =>
        Ok {| settings_Config :=
                {| AuthRequired := bool_decide (field "auth" (fields_of body) = Some "true");
                   Config_rest := tt |};
              settings_Accounts := {[ "admin" := password ]} |}
    | None => Err "Key: 'Accounts' Error: required"
    end;
  bindQuery _ := Err "not a query"
|}.

#[global] Instance bind_Rule : Binding RuleDoc := {|
  bindJSON body :=
    match field "name" (fields_of body) with
    | Some name => Ok {| rule_name := name |}
    | None => Err "Key: 'Rule.Name' Error: required"
    end;
  bindQuery _ := Err "not a query"
|}.

#[global] Instance bind_PcapFileRequest : Binding PcapFileRequest := {|
  bindJSON body :=
    match field "file" (fields_of body) with
    | Some file =>
        Ok {| File := file;
              FlushAll := bool_decide (field "flush_all" (fields_of body) = Some "true");
              DeleteOriginalFile :=
                bool_decide (field "delete_original_file" (fields_of body) = Some "true") |}
    | None => Err "EOF"
    end;
  bindQuery _ := Err "not a query"
|}.

#[global] Instance bind_SearchOptions : Binding SearchOptions := {|
  bindJSON body :=
    if String.eqb body "" then Err "EOF"
    else
      Ok {| TextSearch_ :=
              {| Terms := (λ t, [t]) <$> field "terms" (fields_of body);
                 ExcludedTerms := (λ t, [t]) <$> field "excluded_terms" (fields_of body);
                 ExactPhrase := default "" (field "exact_phrase" (fields_of body));
                 TextSearch_rest :=
                   bool_decide (field "case_sensitive" (fields_of body) = Some "true") |};
            RegexSearch_ :=
              {| Pattern := default "" (field "pattern" (fields_of body));
                 NotPattern := default "" (field "not_pattern" (fields_of body));
                 RegexSearch_rest :=
                   bool_decide (field "multi_line" (fields_of body) = Some "true") |};
            SearchOptions_rest := tt |};
  bindQuery _ := Err "not a query"
|}.

#[global] Instance bind_Format : Binding Format := {|
  bindJSON _ := Err "not a body";
  bindQuery query :=
    if forallb (String.prefix "format=") (fields_of query)
    then Ok {| format := default "default" (field "format" (fields_of query)) |}
    else Err "invalid query"
|}.

#[global] Instance forms : gin.Forms := {|
  gin.parseFormFile body name :=
    match field name (fields_of body) with
    | Some filename => Ok {| gin.Filename := filename |}
    | None => Err "http: no such file"
    end;
  gin.parsePostForm body key := field key (fields_of body)
|}.

#[global] Instance bind_DownloadFormat : Binding DownloadFormat := {|
  bindJSON _ := Err "not a body";
  bindQuery query :=
    if forallb (String.prefix "format=") (fields_of query)
    then Ok {| download_format := default "default" (field "format" (fields_of query)) |}
    else Err "invalid query"
|}.

#[global] Instance bind_Filter : Binding Filter := {|
  bindJSON _ := Err "not a body";
  bindQuery query :=
    if forallb (String.prefix "marked=") (fields_of query)
    then Ok {| only_marked := bool_decide (field "marked" (fields_of query) = Some "true") |}
    else Err "invalid query"
|}.

#[global] Instance bind_Window : Binding Window := {|
  bindJSON _ := Err "not a body";
  bindQuery query :=
    if String.eqb query "" then Ok {| since := 0 |} else Err "invalid query"
|}.

#[global] Instance bind_Capture : Binding Capture := {|
  bindJSON body :=
    match field "interface" (fields_of body) with
    | Some name => Ok {| interface := name |}
    | None => Err "EOF"
    end;
  bindQuery _ := Err "not a query"
|}.

#[global] Instance bind_SSH : Binding SSH := {|
  bindJSON body :=
    match field "host" (fields_of body) with
    | Some name => Ok {| host := name |}
    | None => Err "EOF"
    end;
  bindQuery _ := Err "not a query"
|}.

#[global] Instance bind_RemoteCaptureRequest : Binding RemoteCaptureRequest := {|
  bindJSON body :=
    match field "host" (fields_of body), field "interface" (fields_of body) with
    | Some h, Some i =>
        Ok {| request_SSHConfig := {| host := h |};
              request_CaptureOptions := {| interface := i |} |}
    | _, _ => Err "EOF"
    end;
  bindQuery _ := Err "not a query"
|}.

#[global] Instance bind_IntervalRequest : Binding IntervalRequest := {|
  bindJSON body :=
    match field "rotation_interval" (fields_of body) with
    | Some digits => Ok {| RotationInterval := Z.of_nat (String.length digits) |}
    | None => Err "Key: 'RotationInterval' Error: required"
    end;
  bindQuery _ := Err "not a query"
|}.

#[global] Instance bind_ServiceDoc : Binding ServiceDoc := {|
  bindJSON body :=
    match field "name" (fields_of body) with
    | Some name => Ok {| port := N.of_nat (String.length name); service_name := name |}
    | None => Err "EOF"
    end;
  bindQuery _ := Err "not a query"
|}.

#[global] Instance bind_CommentBody : Binding CommentBody := {|
  bindJSON body :=
    match field "comment" (fields_of body) with
    | Some text => Ok {| Comment := text |}
    | None => Err "EOF"
    end;
  bindQuery _ := Err "not a query"
|}.

(** A struct is zero when all its fields are. *)
#[global] Instance TextSearch_isZero : IsZero TextSearch := λ t,
  is_nil (Terms t) && is_nil (ExcludedTerms t) && String.eqb (ExactPhrase t) ""
  && negb (TextSearch_rest t).

#[global] Instance RegexSearch_isZero : IsZero RegexSearch := λ r,
  String.eqb (Pattern r) "" && String.eqb (NotPattern r) ""
  && negb (RegexSearch_rest r).

#[global] Instance context_methods : ApplicationContextMethods := {|
  SetConfig config '(a, w) :=
    ({| Config_ := config; Accounts := Accounts a; IsConfigured := true |}, w);
  SetAccounts accounts '(a, w) :=
    ({| Config_ := Config_ a; Accounts := accounts; IsConfigured := IsConfigured a |}, w);
  Status a w := IsConfigured a
|}.

#[global] Instance notification_controller : NotificationController := {|
  NotificationHandler c w :=
    (if String.eqb (http.Host (gin.Request c)) "" then Some "bad handshake" else None, w)
|}.

(** Rule names are unique. *)
Definition name_taken (name : string) (except : option N) (w : World) : bool :=
  existsb (λ entry : N * RuleDoc,
             String.eqb (rule_name entry.2) name
             && negb (bool_decide (Some entry.1 = except)))
          (map_to_list (rules w)).

#[global] Instance rules_manager : RulesManager := {|
  AddRule _ rule w :=
    if name_taken (rule_name rule) None w then (Err "rule name must be unique", w)
    else let id := N.of_nat (size (rules w)) in
         (Ok id, with_rules (<[id := rule]> (rules w)) w);
  GetRule id w := rules w !! id;
  GetRules w := (map_to_list (rules w)).*2;
  UpdateRule _ id rule w :=
    match rules w !! id with
    | None => (Ok false, w)
    | Some _ =>
        if name_taken (rule_name rule) (Some id) w
        then (Err "already exists another rule with the same name", w)
        else (Ok true, with_rules (<[id := rule]> (rules w)) w)
    end
|}.

#[global] Instance pcap_importer : PcapImporter := {|
  ImportPcap fileName flushAll w :=
    if existsb (λ entry, session_running entry.2) (map_to_list (sessions w))
    then (Err "another session is running", w)
    else
      let id := Z.to_N (clock w) in
      (Ok id,
       with_sessions
         (<[id := {| session_id := id; started_at := clock w; completed_at := None;
                     packets_read := 0; packets_dropped := 0; bytes_processed := 0;
                     source := fileName; cancelled := false |}]> (sessions w)) w);
  GetSession id w := sessions w !! id;
  GetSessions w := (map_to_list (sessions w)).*2;
  CancelSession id w :=
    ((spec_cancel_session id (sessions w)).1,
     with_sessions (spec_cancel_session id (sessions w)).2 w);
  StartLocalCapture options w :=
    match capture w with
    | Some _ => (Some "capture already running", w)
    | None => (None, with_capture (Some (interface options)) w)
    end;
  StartRemoteCapture ssh options w :=
    match capture w with
    | Some _ => (Some "capture already running", w)
    | None => (None, with_capture (Some (host ssh +:+ ":" +:+ interface options)) w)
    end;
  StopCapture w :=
    match capture w with
    | Some _ => (None, with_capture None w)
    | None => (Some "no capture running", w)
    end;
  ListInterfaces w := (Ok ["lo"; "eth0"], w);
  ListRemoteInterfaces ssh w :=
    (if String.eqb (host ssh) "" then Err "ssh: no host" else Ok ["eth0"], w);
  SetSessionRotationInterval interval w := with_rotation interval w
|}.

Definition update_flags (id : N) (f : Flags → Flags) (w : World) : bool * World :=
  match connections w !! id with
  | Some flags => (true, with_connections (<[id := f flags]> (connections w)) w)
  | None => (false, w)
  end.

#[global] Instance connections_controller : ConnectionsController := {|
  GetConnections _ filter w :=
    List.filter (λ f, implb (only_marked filter) (marked f))
      (map_to_list (connections w)).*2;
  GetConnection _ id w := connections w !! id;
  SetHidden _ id value :=
    update_flags id (λ f, {| hidden := value; marked := marked f; comment := comment f |});
  SetMarked _ id value :=
    update_flags id (λ f, {| hidden := hidden f; marked := value; comment := comment f |});
  SetComment _ id value :=
    update_flags id (λ f, {| hidden := hidden f; marked := marked f; comment := value |})
|}.

#[global] Instance search_controller : SearchController := {|
  GetPerformedSearches w := [];
  PerformSearch _ options w :=
    ((map_to_list (connections w)).*1, w)
|}.

#[global] Instance streams_controller : ConnectionStreamsController := {|
  GetConnectionMessages _ id fmt w :=
    match connections w !! id with
    | Some flags => Some [comment flags]
    | None => None
    end;
  DownloadConnectionMessages _ id fmt w :=
    match connections w !! id with
    | Some flags => Some (comment flags)
    | None => None
    end
|}.

#[global] Instance services_controller : ServicesController := {|
  GetServices w := services w;
  SetService _ service w :=
    if (port service =? 0)%N then (Some "invalid port", w)
    else (None, with_services (<[port service := service_name service]> (services w)) w);
  DeleteService _ service w :=
    match services w !! port service with
    | Some _ => (None, with_services (delete (port service) (services w)) w)
    | None => (Some "service not found", w)
    end
|}.

#[global] Instance statistics_controller : StatisticsController := {|
  GetStatistics _ filter w := [Z.of_nat (size (connections w))];
  GetTotalStatistics _ filter w := Z.of_nat (size (connections w))
|}.

#[global] Instance resources_controller : ResourcesController := {|
  GetSystemStats _ w := clock w;
  GetProcessStats _ w := Z.of_nat (size (sessions w))
|}.

#[global] Instance system : System := {|
  FileExists path w := bool_decide (path ∈ files w);
  CopyFile dst src w :=
    if bool_decide (src ∈ files w) then (None, with_files ({[ dst ]} ∪ files w) w)
    else (Some "no such file", w);
  os_Remove path w :=
    if bool_decide (path ∈ files w) then (None, with_files (files w ∖ {[ path ]}) w)
    else (Some "no such file", w);
  SaveUploadedFile file dst w := (None, with_files ({[ dst ]} ∪ files w) w);
  Now_UnixNano w := (clock w, with_clock (clock w + 1) w)
|}.

(** Credentials are accepted when they are "user:password" of an account. *)
#[global] Instance basic_auth : GinBasicAuth := λ accounts Next c,
  match http.Authorization (gin.Request c) with
  | Some credentials =>
      if existsb (λ account : string * string,
                    String.eqb (account.1 +:+ ":" +:+ account.2) credentials)
                 (map_to_list accounts)
      then mret tt
      else c_AbortWithStatus http.StatusUnauthorized
  | None => c_AbortWithStatus http.StatusUnauthorized
  end.

(** A world with two rules, one running and one completed session, one
    connection and two files. *)
Definition session_1 : SpecSession N :=
  {| session_id := 1%N; started_at := 10; completed_at := None; packets_read := 3;
     packets_dropped := 0; bytes_processed := 120; source := "a.pcap";
     cancelled := false |}.

Definition session_2 : SpecSession N :=
  {| session_id := 2%N; started_at := 20; completed_at := Some 30; packets_read := 9;
     packets_dropped := 1; bytes_processed := 800; source := "b.pcap";
     cancelled := false |}.

Definition world_0 : World :=
  {| rules := {[ 0%N := {| rule_name := "flag" |}; 1%N := {| rule_name := "key" |} ]};
     sessions := {[ 1%N := session_1; 2%N := session_2 ]};
     connections := {[ 7%N := {| hidden := false; marked := false; comment := "" |} ]};
     services := {[ 80%N := "http" ]};
     files := {[ "/tmp/dump.pcap"; "pcaps/000000000000000000000002.pcapng" ]};
     capture := None;
     rotation := 300000000000;
     clock := 1700000000 |}.

Definition configured (auth : bool) : ApplicationContext :=
  {| Config_ := {| AuthRequired := auth; Config_rest := tt |};
     Accounts := {[ "admin" := "secret" ]};
     IsConfigured := true |}.

Definition unconfigured : ApplicationContext :=
  {| Config_ := {| AuthRequired := false; Config_rest := tt |};
     Accounts := ∅;
     IsConfigured := false |}.

(** A request with the given path parameters, query string and body. *)
Definition request (params : list (string * string)) (query body : string) : gin.Context :=
  {| gin.Request :=
       {| http.Host := "caronte.local"; http.Authorization := None;
          http.RawQuery := query; http.Body := body |};
     gin.Params := list_to_map params |}.

(** Search options with both terms and an exact phrase. *)
Definition terms_and_phrase : SearchOptions :=
  {| TextSearch_ := {| Terms := Some ["abc"]; ExcludedTerms := None;
                       ExactPhrase := "abc def"; TextSearch_rest := false |};
     RegexSearch_ := {| Pattern := ""; NotPattern := ""; RegexSearch_rest := false |};
     SearchOptions_rest := tt |}.

(** The same system on a disk that is full: an upload cannot be saved. *)
Definition full_disk : System :=
  {| FileExists := FileExists (System := system);
     CopyFile := CopyFile (System := system);
     os_Remove := os_Remove (System := system);
     SaveUploadedFile file dst w := (Some "no space left on device", w);
     Now_UnixNano := Now_UnixNano (System := system) |}.

(** The world while a capture runs on eth0. *)
Definition capturing : World := with_capture (Some "eth0") world_0.

End InMemory.

(** * Properties of the router *)

Section Properties.

Context `{types : Types}.
Context `{!RowIDCodec RowID, !Filepath, !Strings, !Constants, !gin.Forms}.
Context `{!ApplicationContextMethods, !NotificationController}.
Context `{!RulesManager, !PcapImporter}.
Context `{!ConnectionsController, !SearchController}.
Context `{!ConnectionStreamsController, !ServicesController}.
Context `{!StatisticsController, !ResourcesController}.
Context `{!System, !GinBasicAuth}.
Context `{!IsZero TextSearch, !IsZero RegexSearch}.
Context `{!Binding Settings, !Binding Rule, !Binding PcapFileRequest}.
Context `{!Binding SearchOptions, !Binding GetMessageFormat}.
Context `{!Binding CommentBody, !Binding DownloadMessageFormat}.
Context `{!Binding CaptureOptions, !Binding SSHConfig}.
Context `{!Binding IntervalRequest, !Binding RemoteCaptureRequest}.
Context `{!Binding ConnectionsFilter, !Binding Service}.
Context `{!Binding StatisticsFilter}.
Context `{!EqDecision RowID, !Countable RowID}.

(** Unfold the monad and the primitives of an exchange. *)
Ltac run :=
  cbv [mbind mret M_bind M_ret call query emit write set_world set_app
       get_world get_app panic Abort finish stopped c_JSON c_AbortWithStatus
       c_AbortWithStatusJSON c_FileAttachment c_File c_String Notify success
       badRequest
       unprocessableEntity notFound serverError error_document fresh
       applicationContext_SetConfig applicationContext_SetAccounts];
  cbn.

(** ** Rules *)

(** C3. POST /api/rules with a body that binds to a Rule: when
    [RulesManager.AddRule] returns an error the response is 422 Unprocessable
    Entity carrying the error message and no notification is sent; when it
    succeeds the response is 200 carrying the new rule id and exactly one
    notification, 'rules.new' with that id, is sent. *)
Theorem POST_rules_outcome (c : gin.Context) (a : ApplicationContext) (w : W)
    (rule : Rule) :
  ShouldBindJSON c = Ok rule →
  let out := POST_rules c (fresh a w) in
  calls (trace out.2) = [EvAddRule rule]
  ∧ (∀ err, (AddRule c rule w).1 = Err err →
       out.1 = Val tt
       ∧ written out.2 =
           [JSON http.StatusUnprocessableEntity
              (H {[ "result" := VString "error"; "error" := VString err ]})]
       ∧ notifications (trace out.2) = [])
  ∧ (∀ id, (AddRule c rule w).1 = Ok id →
       out.1 = Val tt
       ∧ written out.2 = [JSON http.StatusOK (H {[ "id" := VRowID id ]})]
       ∧ notifications (trace out.2) = [("rules.new", H {[ "id" := VRowID id ]})]).
Proof.
  intros Hbind. unfold POST_rules. rewrite Hbind. run.
  destruct (AddRule c rule w) as [[id | err] w']; cbn.
  - split; [reflexivity |]. split; [discriminate |].
    intros id' [= <-]. repeat split.
  - split; [reflexivity |]. split; [| discriminate].
    intros err' [= <-]. repeat split.
Qed.

(** PUT /api/rules/:id with a well-formed id and a body that binds to a Rule:
    an error of [RulesManager.UpdateRule] is answered 400 Bad Request carrying
    the error message, in the error document that POST /api/rules sends with
    422; an unknown id is answered 404 Not Found naming the id; only on
    success is the rule returned, with one 'rules.edit' notification. *)
Lemma PUT_rules_id_outcome (c : gin.Context) (a : ApplicationContext) (w : W)
    (id : RowID) (rule : Rule) :
  RowIDFromHex (gin.Param c "id") = Ok id →
  ShouldBindJSON c = Ok rule →
  let out := PUT_rules_id c (fresh a w) in
  out.1 = Val tt
  ∧ calls (trace out.2) = [EvUpdateRule id rule]
  ∧ (∀ err, (UpdateRule c id rule w).1 = Err err →
       written out.2 =
         [JSON http.StatusBadRequest
            (H {[ "result" := VString "error"; "error" := VString err ]})]
       ∧ notifications (trace out.2) = [])
  ∧ ((UpdateRule c id rule w).1 = Ok false →
       written out.2 =
         [JSON http.StatusNotFound
            (H {[ "error" := VString "not found"; "id" := VRowID id ]})]
       ∧ notifications (trace out.2) = [])
  ∧ ((UpdateRule c id rule w).1 = Ok true →
       written out.2 = [JSON http.StatusOK (ORule rule)]
       ∧ notifications (trace out.2) = [("rules.edit", ORule rule)])
  ∧ (notifications (trace out.2) ≠ [] → (UpdateRule c id rule w).1 = Ok true).
Proof.
  intros Hid Hbind. unfold PUT_rules_id. cbn zeta. rewrite Hid, Hbind. run.
  destruct (UpdateRule c id rule w) as [[[|] | err] w']; cbn;
    repeat split; try discriminate; congruence.
Qed.

(** ** Lookups by id *)

(** C5, as the router has it. With a well-formed id that names no entity,
    GET /api/rules/:id, GET /api/pcap/sessions/:id and GET /api/connections/:id
    answer 404 Not Found with a document naming the id; GET /api/streams/:id
    does so when its query string binds to the message format, and answers
    400 Bad Request without looking the connection up when it does not.  A
    malformed hex id is answered 400 Bad Request by the four routes. *)
Theorem lookup_by_id_outcome (c : gin.Context) (a : ApplicationContext) (w : W) :
  (∀ id, RowIDFromHex (gin.Param c "id") = Ok id →
     (GetRule id w = None →
        written (GET_rules_id c (fresh a w)).2 =
          [JSON http.StatusNotFound
             (H {[ "error" := VString "not found"; "id" := VRowID id ]})])
     ∧ (GetSession id w = None →
        written (GET_pcap_sessions_id c (fresh a w)).2 =
          [JSON http.StatusNotFound
             (H {[ "error" := VString "not found"; "session" := VRowID id ]})])
     ∧ (GetConnection c id w = None →
        written (GET_connections_id c (fresh a w)).2 =
          [JSON http.StatusNotFound
             (H {[ "error" := VString "not found"; "connection" := VRowID id ]})])
     ∧ (∀ format, ShouldBindQuery c = Ok format →
        GetConnectionMessages c id format w = None →
        written (GET_streams_id c (fresh a w)).2 =
          [JSON http.StatusNotFound
             (H {[ "error" := VString "not found"; "connection" := VRowID id ]})])
     ∧ (∀ err, ShouldBindQuery (T := GetMessageFormat) c = Err err →
        written (GET_streams_id c (fresh a w)).2 =
          [JSON http.StatusBadRequest
             (H {[ "result" := VString "error"; "error" := VString err ]})]
        ∧ trace (GET_streams_id c (fresh a w)).2 = []))
  ∧ (∀ err, RowIDFromHex (gin.Param c "id") = Err err →
     let answer :=
       [JSON http.StatusBadRequest
          (H {[ "result" := VString "error"; "error" := VString err ]})] in
     written (GET_rules_id c (fresh a w)).2 = answer
     ∧ written (GET_pcap_sessions_id c (fresh a w)).2 = answer
     ∧ written (GET_connections_id c (fresh a w)).2 = answer
     ∧ written (GET_streams_id c (fresh a w)).2 = answer).
Proof.
  unfold GET_rules_id, GET_pcap_sessions_id, GET_connections_id, GET_streams_id.
  cbn zeta. split.
  - intros id ->. split; [| split; [| split; [| split]]].
    + intros Hnone. run. rewrite Hnone. reflexivity.
    + intros Hnone. run. rewrite Hnone. reflexivity.
    + intros Hnone. run. rewrite Hnone. reflexivity.
    + intros format Hquery Hnone. rewrite Hquery. run. rewrite Hnone. reflexivity.
    + intros err Hquery. rewrite Hquery. split; reflexivity.
  - intros err ->. repeat split.
Qed.

(** ** Sessions *)

(** C6. GET /api/pcap/sessions/:id/download for an existing session serves
    [<hex>.pcap] under the pcaps/ base path when that file exists, otherwise
    [<hex>.pcapng] when that one exists, and answers 404 Not Found when
    neither exists or when the session is unknown. *)
Theorem GET_pcap_sessions_id_download_outcome (c : gin.Context)
    (a : ApplicationContext) (w : W) (sessionID : RowID) :
  RowIDFromHex (gin.Param c "id") = Ok sessionID →
  let pcap := Hex sessionID +:+ ".pcap" in
  let pcapng := Hex sessionID +:+ ".pcapng" in
  let out := GET_pcap_sessions_id_download c (fresh a w) in
  let missing :=
    [JSON http.StatusNotFound
       (H {[ "error" := VString "not found"; "session" := VRowID sessionID ]})] in
  out.1 = Val tt
  ∧ (is_Some (GetSession sessionID w) →
       (FileExists (filepath_Join "pcaps/" pcap) w = true →
          written out.2 = [FileAttachment (filepath_Join "pcaps/" pcap) pcap])
       ∧ (FileExists (filepath_Join "pcaps/" pcap) w = false →
          FileExists (filepath_Join "pcaps/" pcapng) w = true →
          written out.2 = [FileAttachment (filepath_Join "pcaps/" pcapng) pcapng])
       ∧ (FileExists (filepath_Join "pcaps/" pcap) w = false →
          FileExists (filepath_Join "pcaps/" pcapng) w = false →
          written out.2 = missing))
  ∧ (GetSession sessionID w = None → written out.2 = missing).
Proof.
  intros Hid. unfold GET_pcap_sessions_id_download. rewrite Hid.
  change PcapsBasePath with "pcaps/". run.
  destruct (GetSession sessionID w) as [session |]; cbn.
  - destruct (FileExists (filepath_Join "pcaps/" (Hex sessionID +:+ ".pcap")) w); cbn.
    + repeat split; discriminate.
    + destruct (FileExists (filepath_Join "pcaps/" (Hex sessionID +:+ ".pcapng")) w);
        cbn; repeat split; discriminate.
  - split; [reflexivity |]. split; [intros [? [=]] | reflexivity].
Qed.

(** The answer of DELETE /api/pcap/sessions/:id follows the boolean that
    [CancelSession] returns. *)
Lemma DELETE_pcap_sessions_id_by_result (c : gin.Context) (a : ApplicationContext)
    (w : W) (sessionID : RowID) :
  RowIDFromHex (gin.Param c "id") = Ok sessionID →
  let out := DELETE_pcap_sessions_id c (fresh a w) in
  let session := H {[ "session" := VString (Hex sessionID) ]} in
  out.1 = Val tt
  ∧ world out.2 = (CancelSession sessionID w).2
  ∧ written out.2 =
      [JSON (if (CancelSession sessionID w).1 then http.StatusAccepted
             else http.StatusNotFound) session]
  ∧ notifications (trace out.2) =
      (if (CancelSession sessionID w).1 then [("sessions.delete", session)] else []).
Proof.
  intros Hid. unfold DELETE_pcap_sessions_id. rewrite Hid. run.
  destruct (CancelSession sessionID w) as [[|] w']; cbn; repeat split.
Qed.

(** [cancel_session] of the specification returns true exactly when the
    session was running, and then leaves it cancelled. *)
Lemma spec_cancel_session_true (id : RowID) (sessions : gmap RowID (SpecSession RowID)) :
  (spec_cancel_session id sessions).1 = true
  ↔ ∃ s, sessions !! id = Some s ∧ session_running s = true.
Proof.
  unfold spec_cancel_session. destruct (sessions !! id) as [s |] eqn:Hs.
  - destruct (session_running s) eqn:Hrun; cbn.
    + split; [intros _; exists s; auto | reflexivity].
    + split; [discriminate |]. intros (s' & [= <-] & Hrun'). congruence.
  - cbn. split; [discriminate |]. intros (s' & [=] & _).
Qed.

Lemma spec_cancel_session_cancels (id : RowID) (sessions : gmap RowID (SpecSession RowID)) :
  (spec_cancel_session id sessions).1 = true →
  ∃ s, (spec_cancel_session id sessions).2 !! id = Some s ∧ cancelled s = true.
Proof.
  unfold spec_cancel_session. destruct (sessions !! id) as [s |] eqn:Hs; [| discriminate].
  destruct (session_running s); [| discriminate]. cbn. intros _.
  exists (mark_cancelled s). split; [apply lookup_insert_eq | reflexivity].
Qed.

Lemma spec_cancel_session_false (id : RowID) (sessions : gmap RowID (SpecSession RowID)) :
  (spec_cancel_session id sessions).1 = false →
  (spec_cancel_session id sessions).2 = sessions.
Proof.
  unfold spec_cancel_session. destruct (sessions !! id) as [s |]; [| reflexivity].
  destruct (session_running s); [discriminate | reflexivity].
Qed.

(** C2. DELETE /api/pcap/sessions/:id with a well-formed id, over an importer
    that implements [cancel_session] of the specification: the operation
    returns true exactly when a running session with that id existed, which
    is then cancelled; in that case the route answers 202 Accepted with the
    session id and notifies 'sessions.delete'; otherwise it answers 404 Not
    Found, sends no notification and leaves the sessions as they were. *)
Theorem DELETE_pcap_sessions_id_outcome
    (sessions_of : W → gmap RowID (SpecSession RowID))
    (c : gin.Context) (a : ApplicationContext) (w : W) (sessionID : RowID) :
  implements_cancel_session sessions_of →
  RowIDFromHex (gin.Param c "id") = Ok sessionID →
  let running :=
    ∃ s, sessions_of w !! sessionID = Some s ∧ session_running s = true in
  let out := DELETE_pcap_sessions_id c (fresh a w) in
  let session := H {[ "session" := VString (Hex sessionID) ]} in
  ((CancelSession sessionID w).1 = true ↔ running)
  ∧ calls (trace out.2) = [EvCancelSession sessionID]
  ∧ (running →
       written out.2 = [JSON http.StatusAccepted session]
       ∧ notifications (trace out.2) = [("sessions.delete", session)]
       ∧ ∃ s, sessions_of (world out.2) !! sessionID = Some s ∧ cancelled s = true)
  ∧ (¬ running →
       written out.2 = [JSON http.StatusNotFound session]
       ∧ notifications (trace out.2) = []
       ∧ sessions_of (world out.2) = sessions_of w).
Proof.
  intros Himpl Hid.
  destruct (DELETE_pcap_sessions_id_by_result c a w sessionID Hid)
    as (_ & Hworld & Hwritten & Hnotified).
  destruct (Himpl sessionID w) as [Hresult Hsessions].
  cbn zeta. rewrite Hwritten, Hnotified, Hworld, Hsessions, Hresult.
  rewrite spec_cancel_session_true.
  split; [reflexivity |]. split.
  { unfold DELETE_pcap_sessions_id. rewrite Hid. run.
    destruct (CancelSession sessionID w) as [[|] w']; reflexivity. }
  split.
  - intros Hrun. apply spec_cancel_session_true in Hrun as Hcancel.
    rewrite Hcancel. repeat split. by apply spec_cancel_session_cancels.
  - intros Hrun.
    destruct (spec_cancel_session sessionID (sessions_of w)).1 eqn:Hcancel.
    + apply spec_cancel_session_true in Hcancel. contradiction.
    + repeat split. apply spec_cancel_session_false, Hcancel.
Qed.

(** ** Connections *)

(** Unfold every handler of the router but the action route, and follow each
    of its paths to the end. *)
Ltac every_path :=
  cbv [GET_index GET_websocket POST_setup GET_status GET_rules POST_rules
       GET_rules_id PUT_rules_id POST_pcap_upload POST_pcap_file
       PUT_capture_local DELETE_capture POST_capture_local_interfaces
       PUT_capture_interval PUT_capture_remote POST_capture_remote_interfaces
       GET_pcap_sessions GET_pcap_sessions_id GET_pcap_sessions_id_download
       DELETE_pcap_sessions_id GET_pcap_connections_id_download GET_connections
       GET_connections_id GET_searches POST_searches_perform GET_streams_id
       GET_streams_id_download GET_services PUT_services DELETE_services
       GET_statistics GET_statistics_totals GET_resources_system
       GET_resources_process];
  run; repeat (case_match; simplify_eq/=).

(** Of all the routes of the router, only the action route calls a setter of
    the ConnectionsController. *)
Lemma connection_mutation_only_by_action (method : Method) (path : string)
    (h : gin.Context → M unit) (c : gin.Context) (a : ApplicationContext) (w : W) :
  (method, path, h) ∈ (router_routes ++ api_routes)%list →
  existsb connection_mutation (trace (h c (fresh a w)).2) = true →
  (method, path) = (POST, "/api/connections/:id/:action").
Proof.
  intros Hin. unfold router_routes, api_routes, api_group, index_paths in Hin.
  cbn in Hin.
  repeat (apply elem_of_cons in Hin as [Hin | Hin]);
    try (apply elem_of_nil in Hin; contradiction).
  all: injection Hin as -> -> ->.
  all: try (intros _; reflexivity).
  all: every_path; discriminate.
Qed.

(** The cases of the action route that a fixed action rules out, and the
    calls in a trace of at most one call. *)
Ltac action_cases :=
  repeat split; try discriminate;
  try (match goal with Hnot : _ ∉ _ |- _ => exfalso; apply Hnot; repeat constructor end);
  try (intros ? ->%list_elem_of_singleton; eauto);
  try (intros ? []%elem_of_nil);
  try (intros; eapply connection_mutation_only_by_action; eassumption).

(** C7. POST /api/connections/:id/:action with a well-formed id: [hide] and
    [show] call SetHidden with true and false, [mark] and [unmark] call
    SetMarked with true and false, [comment] calls SetComment with the bound
    comment; a false result of the controller is answered 404 Not Found; any
    other action is answered 400 Bad Request without a controller call; the
    route makes no controller call other than these three setters on the
    connection named by the id; and no other route of the router calls a
    setter of the ConnectionsController. *)
Theorem POST_connections_id_action_outcome (c : gin.Context)
    (a : ApplicationContext) (w : W) (id : RowID) :
  RowIDFromHex (gin.Param c "id") = Ok id →
  let action := gin.Param c "action" in
  let out := POST_connections_id_action c (fresh a w) in
  (action = "hide" → action_runs c a w id (EvSetHidden id true) (SetHidden c id true))
  ∧ (action = "show" → action_runs c a w id (EvSetHidden id false) (SetHidden c id false))
  ∧ (action = "mark" → action_runs c a w id (EvSetMarked id true) (SetMarked c id true))
  ∧ (action = "unmark" → action_runs c a w id (EvSetMarked id false) (SetMarked c id false))
  ∧ (action = "comment" →
       (∀ comment, ShouldBindJSON c = Ok comment →
          action_runs c a w id (EvSetComment id (Comment comment))
            (SetComment c id (Comment comment)))
       ∧ (∀ err, ShouldBindJSON (T := CommentBody) c = Err err →
          action_refused c a w err))
  ∧ (action ∉ ["hide"; "show"; "mark"; "unmark"; "comment"] →
       action_refused c a w "invalid action")
  ∧ (∀ ev, ev ∈ calls (trace out.2) →
       (∃ value, ev = EvSetHidden id value)
       ∨ (∃ value, ev = EvSetMarked id value)
       ∨ (∃ value, ev = EvSetComment id value))
  ∧ (∀ method path h c' a' w',
       (method, path, h) ∈ (router_routes ++ api_routes)%list →
       existsb connection_mutation (trace (h c' (fresh a' w')).2) = true →
       (method, path) = (POST, "/api/connections/:id/:action")).
Proof.
  intros Hid. cbn zeta.
  pose proof connection_mutation_only_by_action as Honly.
  unfold action_runs, action_refused, action_answer, POST_connections_id_action.
  rewrite Hid. cbn zeta.
  destruct (String.eqb_spec (gin.Param c "action") "hide") as [-> | Hhide].
  { run. destruct (SetHidden c id true w) as [[|] w']; cbn; action_cases. }
  destruct (String.eqb_spec (gin.Param c "action") "show") as [-> | Hshow].
  { run. destruct (SetHidden c id false w) as [[|] w']; cbn; action_cases. }
  destruct (String.eqb_spec (gin.Param c "action") "mark") as [-> | Hmark].
  { run. destruct (SetMarked c id true w) as [[|] w']; cbn; action_cases. }
  destruct (String.eqb_spec (gin.Param c "action") "unmark") as [-> | Hunmark].
  { run. destruct (SetMarked c id false w) as [[|] w']; cbn; action_cases. }
  destruct (String.eqb_spec (gin.Param c "action") "comment") as [-> | Hcomment].
  { destruct (ShouldBindJSON c) as [comment | err] eqn:Hbind; run; rewrite ?Hbind.
    - destruct (SetComment c id (Comment comment) w) as [[|] w'] eqn:Hset; cbn.
      all: split; [discriminate |]. all: split; [discriminate |].
      all: split; [discriminate |]. all: split; [discriminate |].
      all: split; [intros _; split; [| discriminate] |].
      all: try (intros comment' [= <-]; rewrite Hset; repeat split).
      all: action_cases.
    - split; [discriminate |]. split; [discriminate |].
      split; [discriminate |]. split; [discriminate |].
      split; [intros _; split; [discriminate |] |].
      + intros err' [= <-]. repeat split.
      + action_cases. }
  run. repeat split; try contradiction; [| exact Honly].
  intros ev []%elem_of_nil.
Qed.

(** ** Searches *)

(** The checks of the handler leave [badContentError] unset exactly when the
    exclusivity rules hold. *)
Lemma search_badContentError_None (options : SearchOptions) :
  search_badContentError options = None ↔ exclusivity_rules options = true.
Proof.
  unfold search_badContentError, exclusivity_rules, text_search_rules,
    regex_search_rules, exactly_one, slice_present, string_present, is_nil.
  destruct options as [[terms excluded phrase trest] [pattern not_pattern rrest] orest].
  cbn.
  destruct (isZero _), (isZero _), terms, excluded, (String.eqb phrase ""),
    (String.eqb pattern ""), (String.eqb not_pattern ""); cbn;
    split; (discriminate || reflexivity).
Qed.

(** C1. POST /api/searches/perform with a body that binds to SearchOptions:
    the request is answered 400 Bad Request without reaching PerformSearch if
    and only if the options fail the exclusivity rules; otherwise
    PerformSearch is called once and its result answered 200.  In particular
    options with both terms and exact_phrase are rejected (a zero TextSearch
    having nil terms). *)
Theorem POST_searches_perform_outcome (c : gin.Context) (a : ApplicationContext)
    (w : W) (options : SearchOptions) :
  ShouldBindJSON c = Ok options →
  let out := POST_searches_perform c (fresh a w) in
  let rejected :=
    ∃ err, written out.2 =
             [JSON http.StatusBadRequest
                (H {[ "result" := VString "error"; "error" := VString err ]})]
           ∧ trace out.2 = [] in
  (rejected ↔ exclusivity_rules options = false)
  ∧ (exclusivity_rules options = true →
       written out.2 = [JSON http.StatusOK (OSearch (PerformSearch c options w).1)]
       ∧ trace out.2 = [EvPerformSearch options])
  ∧ ((∀ t : TextSearch, isZero t = true → Terms t = None) →
     Terms (TextSearch_ options) ≠ None →
     ExactPhrase (TextSearch_ options) ≠ "" →
     rejected).
Proof.
  intros Hbind. cbn zeta. unfold POST_searches_perform. rewrite Hbind.
  pose proof (search_badContentError_None options) as Hrules.
  destruct (search_badContentError options) as [err |] eqn:Hcheck.
  - assert (exclusivity_rules options = false) as Hfalse.
    { destruct (exclusivity_rules options); [| reflexivity].
      destruct Hrules as [_ Hrules]. discriminate (Hrules eq_refl). }
    run. split; [| split].
    + split; [intros _; exact Hfalse | intros _; exists err; split; reflexivity].
    + rewrite Hfalse. discriminate.
    + intros _ _ _. exists err. split; reflexivity.
  - assert (exclusivity_rules options = true) as Htrue by (apply Hrules; reflexivity).
    run. split; [| split].
    + rewrite Htrue. split; [intros (err & [=] & _) | discriminate].
    + intros _. split; reflexivity.
    + intros Hzero Hterms Hphrase. exfalso.
      unfold exclusivity_rules, text_search_rules, exactly_one, slice_present,
        string_present in Htrue.
      destruct (isZero (TextSearch_ options)) eqn:Hz.
      { apply Hterms, Hzero, Hz. }
      destruct (Terms (TextSearch_ options)); [| congruence].
      destruct (String.eqb_spec (ExactPhrase (TextSearch_ options)) ""); [congruence |].
      cbn in Htrue. destruct (isZero (RegexSearch_ options)); discriminate.
Qed.

(** ** The names of the copies in the processing directory *)

Lemma append_cons (x : Ascii.ascii) (u v : string) : String x u +:+ v = String x (u +:+ v).
Proof. reflexivity. Qed.

Lemma append_nil (v : string) : "" +:+ v = v.
Proof. reflexivity. Qed.

(** The digits of a number hold no dash, and there is at least one. *)
Lemma pretty_N_go_no_dash (x : N) (s : string) :
  (∀ u v, s ≠ u +:+ "-" +:+ v) → ∀ u v, pretty_N_go x s ≠ u +:+ "-" +:+ v.
Proof.
  revert s. induction (N.lt_wf_0 x) as [x _ IH]; intros s Hs.
  assert (x = 0 ∨ 0 < x)%N as [-> | Hpos] by lia.
  - by rewrite pretty_N_go_0.
  - rewrite pretty_N_go_step by done. apply IH; [by apply N.div_lt |].
    intros [| y u] v Heq.
    + rewrite ?append_cons, ?append_nil in Heq.
      injection Heq as Hchar _. revert Hchar. unfold pretty_N_char.
      by repeat case_match.
    + rewrite ?append_cons, ?append_nil in Heq.
      injection Heq as _ Heq. by apply (Hs u v).
Qed.

Lemma pretty_N_go_nonempty (x : N) (s : string) : s ≠ "" → pretty_N_go x s ≠ "".
Proof.
  revert s. induction (N.lt_wf_0 x) as [x _ IH]; intros s Hs.
  assert (x = 0 ∨ 0 < x)%N as [-> | Hpos] by lia.
  - by rewrite pretty_N_go_0.
  - rewrite pretty_N_go_step by done. apply IH; [by apply N.div_lt | done].
Qed.

(** The decimal form of a natural number is not empty and holds no dash. *)
Lemma pretty_N_digits (x : N) :
  pretty x ≠ "" ∧ ∀ u v, pretty x ≠ u +:+ "-" +:+ v.
Proof.
  unfold pretty, pretty_N. destruct (decide (x = 0)%N) as [-> | Hx].
  - split; [done |]. intros [| y [| z u]] v; done.
  - split.
    + rewrite pretty_N_go_step by lia. by apply pretty_N_go_nonempty.
    + apply pretty_N_go_no_dash. intros [| y u] v; done.
Qed.

(** Two strings without a dash that are followed by a dash in the same string
    are the same. *)
Lemma dash_split_inj (p q s t : string) :
  (∀ u v, p ≠ u +:+ "-" +:+ v) → (∀ u v, q ≠ u +:+ "-" +:+ v) →
  p +:+ "-" +:+ s = q +:+ "-" +:+ t → p = q ∧ s = t.
Proof.
  revert q. induction p as [| x p IH]; intros [| y q] Hp Hq Heq.
  - rewrite ?append_cons, ?append_nil in Heq. injection Heq as Heq. by subst.
  - rewrite ?append_cons, ?append_nil in Heq.
    injection Heq as <- _. by destruct (Hq "" q).
  - rewrite ?append_cons, ?append_nil in Heq.
    injection Heq as -> _. by destruct (Hp "" p).
  - rewrite ?append_cons, ?append_nil in Heq.
    injection Heq as -> Heq.
    destruct (IH q) as [-> ->]; [| | done | done].
    + intros u v ->. by apply (Hp (String y u) v).
    + intros u v ->. by apply (Hq (String y u) v).
Qed.

(** [fmt.Sprintf("%v-%s", n, s)] determines both [n] and [s]. *)
Lemma Sprintf_v_s_determines (n m : Z) (s t : string) :
  Sprintf_v_s n s = Sprintf_v_s m t → n = m ∧ s = t.
Proof.
  unfold Sprintf_v_s.
  assert (∀ x : Z, (0 ≤ x)%Z → pretty x ≠ "" ∧ ∀ u v, pretty x ≠ u +:+ "-" +:+ v) as Hdigits.
  { intros [| x | x] Hx; [| apply (pretty_N_digits (N.pos x)) | lia].
    split; [done |]. intros [| y [| z u]] v; done. }
  assert (∀ x : Z, (x < 0)%Z → ∃ y, (0 ≤ y)%Z ∧ pretty x = "-" +:+ pretty y) as Hneg.
  { intros [| x | x] Hx; [lia | lia |]. exists (Z.pos x). split; [lia | done]. }
  intros Heq.
  destruct (Z.le_gt_cases 0 n) as [Hn | Hn], (Z.le_gt_cases 0 m) as [Hm | Hm].
  - destruct (dash_split_inj _ _ _ _ (proj2 (Hdigits n Hn)) (proj2 (Hdigits m Hm)) Heq)
      as [Hpretty ->].
    split; [by apply (inj pretty) | done].
  - destruct (Hneg m Hm) as (y & Hy & Hpretty). rewrite Hpretty in Heq.
    destruct (Hdigits n Hn) as [Hnonempty Hdashless].
    destruct (pretty n) as [| x p]; [done |].
    rewrite ?append_cons, ?append_nil in Heq.
    injection Heq as -> _. by destruct (Hdashless "" p).
  - destruct (Hneg n Hn) as (y & Hy & Hpretty). rewrite Hpretty in Heq.
    destruct (Hdigits m Hm) as [Hnonempty Hdashless].
    destruct (pretty m) as [| x p]; [done |].
    rewrite ?append_cons, ?append_nil in Heq.
    injection Heq as <- _. by destruct (Hdashless "" p).
  - destruct (Hneg n Hn) as (y & Hy & Hpretty), (Hneg m Hm) as (z & Hz & Hpretty').
    assert (pretty y +:+ "-" +:+ s = pretty z +:+ "-" +:+ t) as Heq'.
    { rewrite Hpretty, Hpretty' in Heq.
      rewrite ?append_cons, ?append_nil in Heq.
      by injection Heq. }
    destruct (dash_split_inj _ _ _ _ (proj2 (Hdigits y Hy)) (proj2 (Hdigits z Hz)) Heq')
      as [Heqyz ->].
    split; [| done]. apply (inj pretty). by rewrite Hpretty, Hpretty', Heqyz.
Qed.

(** ** Importing a file of the server *)

(** Settle the cases of a statement about a trace that is known in full. *)
Ltac trace_cases :=
  repeat split; intros;
  repeat match goal with
    | Hin : _ ∈ _ :: _ |- _ => apply elem_of_cons in Hin as [Hin | Hin]
    | Hin : _ ∈ [] |- _ => apply elem_of_nil in Hin; destruct Hin
    | Hx : _ ∧ _ |- _ => destruct Hx
    | Hx : ∃ _, _ |- _ => destruct Hx
    end;
  try discriminate; try congruence; eauto;
  try (repeat constructor; fail).

(** A copy made by POST /api/pcap/file is that of the file of the bound
    request, into the processing directory, under the name made of the clock
    reading and of the base name of the file. *)
Lemma POST_pcap_file_copy_name (c : gin.Context) (a : ApplicationContext) (w : W)
    (dst src : string) :
  EvCopyFile dst src ∈ trace (POST_pcap_file c (fresh a w)).2 →
  ∃ request,
    ShouldBindJSON c = Ok request
    ∧ src = File request
    ∧ dst = filepath_Join ProcessingPcapsBasePath
              (Sprintf_v_s (Now_UnixNano w).1 (filepath_Base (File request))).
Proof.
  unfold POST_pcap_file. destruct (ShouldBindJSON c) as [request | err].
  2: { cbv. intros Hin. apply elem_of_nil in Hin. destruct Hin. }
  cbv [mbind mret M_bind M_ret call query emit write set_world set_app
       get_world get_app panic c_JSON Notify badRequest unprocessableEntity
       error_document fresh app world written aborted finished trace fst snd List.app].
  destruct (FileExists (File request) w); cbv beta iota zeta delta [negb].
  2: { intros Hin. apply elem_of_cons in Hin as [Hin | Hin]; [discriminate |].
       apply elem_of_nil in Hin. destruct Hin. }
  destruct (Now_UnixNano w) as [now w1].
  repeat (match goal with
          | |- context [match ?x with _ => _ end] =>
              lazymatch x with
              | context [match _ with _ => _ end] => fail
              | _ => destruct x
              end
          end;
          cbv beta iota zeta
              delta [app world written aborted finished trace fst snd List.app]).
  all: intros Hin;
    repeat (apply elem_of_cons in Hin as [Hin | Hin]; [try discriminate |]);
    try (apply elem_of_nil in Hin; destruct Hin).
  all: injection Hin as -> ->; by exists request.
Qed.

(** C10. POST /api/pcap/file with a body that binds: a source path that does
    not exist is answered 400 Bad Request before any copy; otherwise the file
    is first copied into the processing directory, before the importer is
    called, under the name made of the decimal clock reading, a dash and the
    base name of the file; the original file is removed exactly when the copy
    succeeded, ImportPcap returned an error and delete_original_file is set,
    so that a successful import never removes it; and no other path is ever
    removed.  The name is fresh as far as the clock goes: whatever this route
    copies when served at another reading of the clock, it copies under
    another name. *)
Theorem POST_pcap_file_outcome (c : gin.Context) (a : ApplicationContext) (w : W)
    (request : PcapFileRequest) :
  ShouldBindJSON c = Ok request →
  let out := POST_pcap_file c (fresh a w) in
  let fileName := pretty (Now_UnixNano w).1 +:+ "-" +:+ filepath_Base (File request) in
  let dst := filepath_Join "pcaps/processing/" fileName in
  let copy := CopyFile dst (File request) (Now_UnixNano w).2 in
  let imported := ImportPcap fileName (FlushAll request) copy.2 in
  (FileExists (File request) w = false →
     written out.2 =
       [JSON http.StatusBadRequest
          (H {[ "result" := VString "error"; "error" := VString "file not exists" ]})]
     ∧ trace out.2 = [EvFileExists (File request)])
  ∧ (FileExists (File request) w = true →
     take 3 (trace out.2) =
       [EvFileExists (File request); EvNow; EvCopyFile dst (File request)]
     ∧ (∀ sessionID, copy.1 = None → imported.1 = Ok sessionID →
          out.1 = Val tt
          ∧ trace out.2 =
              [EvFileExists (File request); EvNow; EvCopyFile dst (File request);
               EvImportPcap fileName (FlushAll request);
               EvNotify "pcap.file" (H {[ "session" := VString (Hex sessionID) ]})]
          ∧ written out.2 =
              [JSON http.StatusAccepted (H {[ "session" := VString (Hex sessionID) ]})]))
  ∧ (EvRemove (File request) ∈ trace out.2
     ↔ FileExists (File request) w = true ∧ copy.1 = None
       ∧ (∃ err, imported.1 = Err err) ∧ DeleteOriginalFile request = true)
  ∧ (∀ path, EvRemove path ∈ trace out.2 → path = File request)
  ∧ (∀ c' a' w' dst' src',
       EvCopyFile dst' src' ∈ trace (POST_pcap_file c' (fresh a' w')).2 →
       ∃ fileName',
         dst' = filepath_Join "pcaps/processing/" fileName'
         ∧ ((Now_UnixNano w').1 ≠ (Now_UnixNano w).1 → fileName' ≠ fileName)).
Proof.
  intros Hbind. cbn zeta.
  change (pretty (Now_UnixNano w).1 +:+ "-" +:+ filepath_Base (File request))
    with (Sprintf_v_s (Now_UnixNano w).1 (filepath_Base (File request))).
  match goal with
  | |- ?A ∧ ?B ∧ ?C ∧ ?D ∧ ?E =>
      cut E;
      [intros HE; cut (A ∧ B ∧ C ∧ D);
       [intros (HA & HB & HC & HD);
        exact (conj HA (conj HB (conj HC (conj HD HE)))) |] |]
  end.
  2: { intros c' a' w' dst' src' Hcopy.
       destruct (POST_pcap_file_copy_name _ _ _ _ _ Hcopy) as (request' & _ & _ & ->).
       eexists. split; [reflexivity |].
       intros Hnow Hname. by apply Sprintf_v_s_determines in Hname as [Hnow' _]. }
  unfold POST_pcap_file. rewrite Hbind.
  change ProcessingPcapsBasePath with "pcaps/processing/". run.
  destruct (FileExists (File request) w); cbn; [| trace_cases].
  destruct (Now_UnixNano w) as [now w1]; cbn.
  set (fileName := Sprintf_v_s now (filepath_Base (File request))).
  set (dst := filepath_Join "pcaps/processing/" fileName).
  destruct (CopyFile dst (File request) w1) as [[copy_err |] w2]; cbn;
    [trace_cases |].
  destruct (ImportPcap fileName (FlushAll request) w2) as [[sessionID | err] w3];
    cbn; [trace_cases |].
  destruct (DeleteOriginalFile request); cbn; [| trace_cases].
  destruct (os_Remove (File request) w3) as [[remove_err |] w4]; cbn; trace_cases.
Qed.

(** ** The setup gate and the authentication gate *)

(** When a chain of handlers returns, the exchange is aborted or the chain
    has run to its end. *)
Lemma run_handlers_stops (handlers : list HandlerFunc) (c : gin.Context)
    (x x' : Exchange) :
  run_handlers handlers c x = (Val tt, x') → aborted x' || finished x' = true.
Proof.
  revert x. induction handlers as [| h rest IH]; intros x; cbn.
  - intros [= <-]. cbn. apply orb_true_r.
  - unfold mbind, M_bind.
    destruct (h _ c x) as [[[] | msg] x1]; [| discriminate].
    unfold stopped. destruct (aborted x1 || finished x1) eqn:Hstop.
    + intros [= <-]. exact Hstop.
    + apply IH.
Qed.

(** A middleware that only calls [c.Next()] is transparent. *)
Lemma run_handlers_pass_through (h : HandlerFunc) (rest : list HandlerFunc)
    (c : gin.Context) (x : Exchange) :
  (∀ Next, h Next c x = Next x) →
  aborted x || finished x = false →
  run_handlers (h :: rest) c x = run_handlers rest c x.
Proof.
  intros Hpass Hfresh. cbn. unfold mbind, M_bind. rewrite Hpass.
  unfold stopped at 1. rewrite Hfresh.
  destruct (run_handlers rest c x) as [[[] | msg] x1] eqn:Hrest; [| reflexivity].
  unfold stopped. rewrite (run_handlers_stops _ _ _ _ Hrest). reflexivity.
Qed.

(** Until the application is configured, a chain that starts with
    [SetupRequiredMiddleware] answers 503 and runs no other handler. *)
Lemma SetupRequiredMiddleware_blocks (rest : list HandlerFunc) (c : gin.Context)
    (a : ApplicationContext) (w : W) :
  IsConfigured a = false →
  serve (SetupRequiredMiddleware :: rest) c a w =
    (Val tt,
     {| app := a; world := w;
        written :=
          [JSON http.StatusServiceUnavailable
             (H {[ "error" := VString "setup required";
                   "url" := VString (http.Host (gin.Request c) +:+ "/setup") ]})];
        aborted := true; finished := false; trace := [] |}).
Proof.
  intros Hconf. unfold serve, SetupRequiredMiddleware. cbn. run.
  rewrite Hconf. reflexivity.
Qed.

(** C8. POST /setup answers 404 once the application is configured, changing
    nothing; while it is not configured, a body that binds is applied with
    SetConfig then SetAccounts, answered 202 and notified; a 202 is only ever
    answered while the application is not configured.  Until the application
    is configured every route of the /api group answers 503 Service
    Unavailable with the error 'setup required', whatever its handler, which
    is not run. *)
Theorem setup_gate (c : gin.Context) (a : ApplicationContext) (w : W) :
  let out := serve [route POST_setup] c a w in
  (IsConfigured a = true →
     out = (Val tt,
            {| app := a; world := w; written := [StatusCode http.StatusNotFound];
               aborted := true; finished := false; trace := [] |}))
  ∧ (IsConfigured a = false →
     ∀ settings, ShouldBindJSON c = Ok settings →
       written out.2 = [JSON http.StatusAccepted (H ∅)]
       ∧ trace out.2 =
           [EvSetConfig (settings_Config settings);
            EvSetAccounts (settings_Accounts settings);
            EvNotify "setup" (H ∅)]
       ∧ (app out.2, world out.2) =
           SetAccounts (settings_Accounts settings)
             (SetConfig (settings_Config settings) (a, w)))
  ∧ (http.StatusAccepted ∈ statuses (written out.2) → IsConfigured a = false)
  ∧ (IsConfigured a = false →
     ∀ h : gin.Context → M unit,
       serve (api h) c a w =
         (Val tt,
          {| app := a; world := w;
             written :=
               [JSON http.StatusServiceUnavailable
                  (H {[ "error" := VString "setup required";
                        "url" := VString (http.Host (gin.Request c) +:+ "/setup") ]})];
             aborted := true; finished := false; trace := [] |})).
Proof.
  cbn zeta. split; [| split; [| split]].
  4: { intros Hconf h. apply SetupRequiredMiddleware_blocks, Hconf. }
  all: unfold serve, route, POST_setup; cbn; run.
  all: destruct (IsConfigured a) eqn:Hconf; cbn; try discriminate; try reflexivity.
  - intros _ settings Hbind. rewrite Hbind. cbn.
    destruct (SetConfig (settings_Config settings) (a, w)) as [a1 w1]; cbn.
    destruct (SetAccounts (settings_Accounts settings) (a1, w1)) as [a2 w2]; cbn.
    repeat split.
  - intros Hin. apply list_elem_of_singleton in Hin. discriminate.
Qed.

Lemma SetupRequiredMiddleware_passes (Next : M unit) (c : gin.Context) (x : Exchange) :
  IsConfigured (app x) = true → SetupRequiredMiddleware Next c x = Next x.
Proof. intros Hconf. unfold SetupRequiredMiddleware. run. rewrite Hconf. reflexivity. Qed.

Lemma AuthRequiredMiddleware_passes (Next : M unit) (c : gin.Context) (x : Exchange) :
  AuthRequired (Config_ (app x)) = false → AuthRequiredMiddleware Next c x = Next x.
Proof. intros Hauth. unfold AuthRequiredMiddleware. run. rewrite Hauth. reflexivity. Qed.

(** No handler of the /api group reads the credentials of the request: it
    reads the path parameters, the query string and the body, and hands the
    context to controllers; when these do not read the credentials either,
    the handler does the same under any credentials. *)
Lemma api_routes_credential_blind (method : Method) (path : string)
    (h : gin.Context → M unit) :
  credential_blind_controllers →
  (method, path, h) ∈ api_routes →
  ∀ credentials c x, h (with_credentials credentials c) x = h c x.
Proof.
  intros (HAddRule & HUpdateRule & HGetConnections & HGetConnection & HSetHidden
          & HSetMarked & HSetComment & HPerformSearch & HGetConnectionMessages
          & HDownloadConnectionMessages & HSetService & HDeleteService
          & HGetStatistics & HGetTotalStatistics & HGetSystemStats & HGetProcessStats)
         Hin credentials c [a w ws ab fi tr].
  unfold api_routes, api_group in Hin. cbn in Hin.
  repeat (apply elem_of_cons in Hin as [Hin | Hin]);
    try (apply elem_of_nil in Hin; contradiction).
  all: injection Hin as -> -> ->.
  all: cbv [GET_status GET_rules POST_rules GET_rules_id PUT_rules_id POST_pcap_upload
            POST_pcap_file PUT_capture_local DELETE_capture POST_capture_local_interfaces
            PUT_capture_interval PUT_capture_remote POST_capture_remote_interfaces
            GET_pcap_sessions GET_pcap_sessions_id GET_pcap_sessions_id_download
            DELETE_pcap_sessions_id GET_pcap_connections_id_download GET_connections
            GET_connections_id POST_connections_id_action GET_searches
            POST_searches_perform GET_streams_id GET_streams_id_download GET_services
            PUT_services DELETE_services GET_statistics GET_statistics_totals
            GET_resources_system GET_resources_process].
  all: change (gin.Param (with_credentials credentials c)) with (gin.Param c).
  all: change (gin.FormFile (with_credentials credentials c)) with (gin.FormFile c).
  all: change (gin.GetPostForm (with_credentials credentials c)) with (gin.GetPostForm c).
  all: change (@ShouldBindJSON) with (λ T B c0, @bindJSON T B (http.Body (gin.Request c0)));
       change (@ShouldBindQuery) with
         (λ T B c0, @bindQuery T B (http.RawQuery (gin.Request c0)));
       cbn beta;
       change (http.Body (gin.Request (with_credentials credentials c)))
         with (http.Body (gin.Request c));
       change (http.RawQuery (gin.Request (with_credentials credentials c)))
         with (http.RawQuery (gin.Request c)).
  all: cbv [mbind mret M_bind M_ret call query emit write set_world set_app
            get_world get_app panic Abort finish stopped c_JSON c_AbortWithStatus
            c_AbortWithStatusJSON c_FileAttachment c_File c_String Notify success
            badRequest unprocessableEntity notFound serverError error_document
            app world written aborted finished trace fst snd List.app].
  all: repeat first
         [ reflexivity
         | progress rewrite ?HAddRule, ?HUpdateRule, ?HGetConnections, ?HGetConnection,
             ?HSetHidden, ?HSetMarked, ?HSetComment, ?HPerformSearch,
             ?HGetConnectionMessages, ?HDownloadConnectionMessages, ?HSetService,
             ?HDeleteService, ?HGetStatistics, ?HGetTotalStatistics, ?HGetSystemStats,
             ?HGetProcessStats
         | match goal with
           | |- context [match ?t with _ => _ end] =>
               lazymatch t with
               | context [match _ with _ => _ end] => fail
               | _ => destruct t
               end
           end;
           cbv beta iota zeta
               delta [app world written aborted finished trace fst snd List.app] ].
Qed.

(** C9. When [Config.AuthRequired] is false the authentication middleware
    passes every request through: a route behind it is served exactly as
    without it, whatever [gin.BasicAuth] would do, so two requests to the /api
    group that differ only in their credentials have the same outcome, for
    any handler that does the same under any credentials.  The handlers of
    the group read no credentials themselves but hand the context to
    controllers, so every route of the group is such a handler as soon as the
    controllers do not read the credentials either.  When [AuthRequired] is
    true the middleware is [gin.BasicAuth] over the configured accounts. *)
Theorem auth_gate (c : gin.Context) (a : ApplicationContext) (w : W)
    (h : gin.Context → M unit) :
  (AuthRequired (Config_ a) = false →
     serve [AuthRequiredMiddleware; route h] c a w = serve [route h] c a w
     ∧ ((∀ credentials c' x, h (with_credentials credentials c') x = h c' x) →
        ∀ credentials1 credentials2,
          serve (api h) (with_credentials credentials1 c) a w
          = serve (api h) (with_credentials credentials2 c) a w)
     ∧ (credential_blind_controllers →
        ∀ method path, (method, path, h) ∈ api_routes →
        ∀ credentials1 credentials2,
          serve (api h) (with_credentials credentials1 c) a w
          = serve (api h) (with_credentials credentials2 c) a w))
  ∧ (AuthRequired (Config_ a) = true →
     ∀ Next x, app x = a →
       AuthRequiredMiddleware Next c x = BasicAuth (Accounts a) Next c x).
Proof.
  split.
  - intros Hauth.
    assert (∀ c0, serve [AuthRequiredMiddleware; route h] c0 a w = serve [route h] c0 a w)
      as Hpass.
    { intros c0. unfold serve. apply run_handlers_pass_through; [| reflexivity].
      intros Next. by apply AuthRequiredMiddleware_passes. }
    split; [apply Hpass |].
    assert ((∀ credentials c' x, h (with_credentials credentials c') x = h c' x) →
            ∀ credentials1 credentials2,
              serve (api h) (with_credentials credentials1 c) a w
              = serve (api h) (with_credentials credentials2 c) a w) as Hsame;
      [| split; [exact Hsame |];
         intros Hblind method path Hin; apply Hsame;
         exact (api_routes_credential_blind method path h Hblind Hin)].
    intros Hblind credentials1 credentials2.
    destruct (IsConfigured a) eqn:Hconf.
    + assert (∀ c0, serve (api h) c0 a w = serve [route h] c0 a w) as Hopen.
      { intros c0. rewrite <- Hpass. unfold api, serve.
        apply run_handlers_pass_through; [| reflexivity].
        intros Next. by apply SetupRequiredMiddleware_passes. }
      rewrite !Hopen. unfold serve, route. cbn. unfold mbind, M_bind.
      rewrite !Hblind. reflexivity.
    + unfold api. rewrite !SetupRequiredMiddleware_blocks by exact Hconf. reflexivity.
  - intros Hauth Next x <-. unfold AuthRequiredMiddleware. run.
    rewrite Hauth. reflexivity.
Qed.

(** * Properties of the whole route table *)

(** Unfold every handler of the router and follow each of its paths to the
    end. *)
Ltac all_paths :=
  cbv [GET_index GET_websocket POST_setup GET_status GET_rules POST_rules
       GET_rules_id PUT_rules_id POST_pcap_upload POST_pcap_file
       PUT_capture_local DELETE_capture POST_capture_local_interfaces
       PUT_capture_interval PUT_capture_remote POST_capture_remote_interfaces
       GET_pcap_sessions GET_pcap_sessions_id GET_pcap_sessions_id_download
       DELETE_pcap_sessions_id GET_pcap_connections_id_download GET_connections
       GET_connections_id POST_connections_id_action GET_searches
       POST_searches_perform GET_streams_id GET_streams_id_download GET_services
       PUT_services DELETE_services GET_statistics GET_statistics_totals
       GET_resources_system GET_resources_process];
  cbv [mbind mret M_bind M_ret call query emit write set_world set_app
       get_world get_app panic Abort finish stopped c_JSON c_AbortWithStatus
       c_AbortWithStatusJSON c_FileAttachment c_File c_String Notify success
       badRequest unprocessableEntity notFound serverError error_document fresh
       applicationContext_SetConfig applicationContext_SetAccounts
       app world written aborted finished trace fst snd List.app];
  repeat (match goal with
          | |- context [match ?x with _ => _ end] =>
              lazymatch x with
              | context [match _ with _ => _ end] => fail
              | _ => destruct x
              end
          end;
          cbv beta iota zeta
              delta [app world written aborted finished trace fst snd List.app]).

(** Split the membership in the route table into its routes. *)
Ltac each_route Hin :=
  cbv [router_routes api_routes api_group index_paths fmap list_fmap List.app
       fst snd String.append] in Hin;
  repeat (apply elem_of_cons in Hin as [Hin | Hin]);
  try (apply elem_of_nil in Hin; contradiction);
  injection Hin as -> -> ->.


(** X2. A notification is only sent for a request that succeeded: on every
    route a handler sends no notification, or it sends exactly one, as its
    last effect, after answering 200 or 202, on a route that is not a GET. *)
Theorem notifications_only_on_success (method : Method) (path : string)
    (h : gin.Context → M unit) (c : gin.Context) (a : ApplicationContext) (w : W) :
  (method, path, h) ∈ (router_routes ++ api_routes)%list →
  let out := h c (fresh a w) in
  notifications (trace out.2) = []
  ∨ (∃ event payload,
       notifications (trace out.2) = [(event, payload)]
       ∧ last (trace out.2) = Some (EvNotify event payload)
       ∧ out.1 = Val tt
       ∧ method ≠ GET
       ∧ (statuses (written out.2) = [200] ∨ statuses (written out.2) = [202])).
Proof.
  intros Hin. each_route Hin.
  all: all_paths.
  all: first
    [ left; reflexivity
    | right; eexists _, _; split; [reflexivity |]; split; [reflexivity |];
      split; [reflexivity |]; split; [discriminate |];
      first [left; reflexivity | right; reflexivity] ].
Qed.

(** Settle a statement about the members of a trace or of a list of status
    codes that is known in full. *)
Ltac members :=
  repeat split; intros;
  repeat match goal with
    | Hin : _ ∈ _ :: _ |- _ => apply elem_of_cons in Hin as [Hin | Hin]
    | Hin : _ ∈ [] |- _ => apply elem_of_nil in Hin; destruct Hin
    end;
  simplify_eq; try discriminate; try reflexivity;
  try (repeat constructor; fail).

(** X3. The event of a notification is fixed by the route that sends it:
    one name per notifying route, and 'services.edit' both for setting and for
    deleting a service. *)
Theorem notification_events (method : Method) (path : string)
    (h : gin.Context → M unit) (c : gin.Context) (a : ApplicationContext) (w : W)
    (event : string) (payload : Obj) :
  (method, path, h) ∈ (router_routes ++ api_routes)%list →
  EvNotify event payload ∈ trace (h c (fresh a w)).2 →
  (method, path, event)
  ∈ [ (POST, "/setup", "setup");
      (POST, "/api/rules", "rules.new");
      (PUT, "/api/rules/:id", "rules.edit");
      (POST, "/api/pcap/upload", "pcap.upload");
      (POST, "/api/pcap/file", "pcap.file");
      (PUT, "/api/capture/local", "capture.local");
      (DELETE, "/api/capture", "capture.stop");
      (PUT, "/api/capture/remote", "capture.remote");
      (DELETE, "/api/pcap/sessions/:id", "sessions.delete");
      (POST, "/api/connections/:id/:action", "connections.action");
      (PUT, "/api/services", "services.edit");
      (DELETE, "/api/services", "services.edit") ].
Proof.
  intros Hin. each_route Hin.
  all: all_paths; members.
Qed.

(** X4. The configuration changes through the setup only: a route other than
    POST /setup, and POST /setup itself once the application is configured,
    leaves the application context as it was and calls neither SetConfig nor
    SetAccounts. *)
Theorem configuration_changes_only_by_setup (method : Method) (path : string)
    (h : gin.Context → M unit) (c : gin.Context) (a : ApplicationContext) (w : W) :
  (method, path, h) ∈ (router_routes ++ api_routes)%list →
  (method, path) ≠ (POST, "/setup") ∨ IsConfigured a = true →
  let out := h c (fresh a w) in
  app out.2 = a
  ∧ (∀ config, EvSetConfig config ∉ trace out.2)
  ∧ (∀ accounts, EvSetAccounts accounts ∉ trace out.2).
Proof.
  intros Hin. each_route Hin.
  all: intros Hsetup;
    lazymatch goal with
    | |- context [POST_setup] =>
        destruct Hsetup as [Hne | Hconf]; [by destruct Hne |]; revert Hconf
    | _ => clear Hsetup
    end;
    all_paths; unfold not; members.
Qed.

(** X5. The file system is written by the two import routes only: os.Remove
    and CopyFile are called by POST /api/pcap/file alone, SaveUploadedFile by
    POST /api/pcap/upload alone, and ImportPcap by no other route than these
    two. *)
Theorem file_system_changes_confined (method : Method) (path : string)
    (h : gin.Context → M unit) (c : gin.Context) (a : ApplicationContext) (w : W) :
  (method, path, h) ∈ (router_routes ++ api_routes)%list →
  let out := h c (fresh a w) in
  (∀ file, EvRemove file ∈ trace out.2 → (method, path) = (POST, "/api/pcap/file"))
  ∧ (∀ dst src, EvCopyFile dst src ∈ trace out.2 →
       (method, path) = (POST, "/api/pcap/file"))
  ∧ (∀ file dst, EvSaveUploadedFile file dst ∈ trace out.2 →
       (method, path) = (POST, "/api/pcap/upload"))
  ∧ (∀ fileName flushAll, EvImportPcap fileName flushAll ∈ trace out.2 →
       method = POST ∧ path ∈ ["/api/pcap/upload"; "/api/pcap/file"]).
Proof.
  intros Hin. each_route Hin.
  all: all_paths; members.
Qed.

(** X6. The status codes of the router: every status written is 200, 202, 400,
    404, 422 or 500; a failure of a controller is never answered with a 5xx,
    500 being written by the websocket route alone; and 202 is the success of
    the setup, of the two import routes and of the cancellation of a session
    only. *)
Theorem status_codes_of_routes (method : Method) (path : string)
    (h : gin.Context → M unit) (c : gin.Context) (a : ApplicationContext) (w : W)
    (code : Z) :
  (method, path, h) ∈ (router_routes ++ api_routes)%list →
  code ∈ statuses (written (h c (fresh a w)).2) →
  code ∈ [200; 202; 400; 404; 422; 500]
  ∧ (code = 500 → path = "/websocket")
  ∧ (code = 202 →
       (method, path)
       ∈ [ (POST, "/setup"); (POST, "/api/pcap/upload"); (POST, "/api/pcap/file");
           (DELETE, "/api/pcap/sessions/:id") ]).
Proof.
  intros Hin. each_route Hin.
  all: all_paths; cbn; members.
Qed.

(** X7. Every route of the /api group with an [:id] parameter decodes it
    first: on a malformed id the exchange is that of [badRequest] alone, so the
    answer is the 400 error document, the body and the query are not bound, no
    controller is called and nothing is notified. *)
Theorem malformed_id_rejected_first (method : Method) (path : string)
    (h : gin.Context → M unit) (c : gin.Context) (a : ApplicationContext) (w : W)
    (err : error) :
  (method, path, h) ∈ api_routes →
  String.index 0 ":id" path ≠ None →
  RowIDFromHex (gin.Param c "id") = Err err →
  h c (fresh a w) = badRequest err (fresh a w).
Proof.
  intros Hin Hid Herr. each_route Hin.
  all: try (by destruct Hid).
  all: clear Hid; revert Herr; all_paths; intros; simplify_eq; reflexivity.
Qed.


(** X9. Every 400, 422 and 500 answered with a document carries the error
    document of the helpers, 'result' being 'error' and 'error' the message;
    the 404 documents are not of that form. *)
Theorem error_answers_carry_error_document (method : Method) (path : string)
    (h : gin.Context → M unit) (c : gin.Context) (a : ApplicationContext) (w : W)
    (code : Z) (obj : Obj) :
  (method, path, h) ∈ (router_routes ++ api_routes)%list →
  JSON code obj ∈ written (h c (fresh a w)).2 →
  (code ∈ [400; 422; 500] → ∃ err, obj = error_document err)
  ∧ (code = 404 → ∀ err, obj ≠ error_document err).
Proof.
  intros Hin. each_route Hin.
  all: all_paths; unfold not; members.
  all: try (eexists; reflexivity).
  all: match goal with
       | Heq : H _ = H _ |- _ =>
           injection Heq as Heq;
           apply (f_equal (λ m : gmap string Value, m !! "result")) in Heq;
           vm_compute in Heq; discriminate
       end.
Qed.

(** X10. The kinds of answer: the page of the web application is served by
    the index routes alone, a file attachment is sent by the two download
    routes of pcaps alone, a plain text by the download of a stream alone and
    always with 200, and a bare status by the setup alone, which is its 404. *)
Theorem answer_kinds_of_routes (method : Method) (path : string)
    (h : gin.Context → M unit) (c : gin.Context) (a : ApplicationContext) (w : W) :
  (method, path, h) ∈ (router_routes ++ api_routes)%list →
  let out := h c (fresh a w) in
  (∀ file, ServedFile file ∈ written out.2 →
     method = GET ∧ path ∈ index_paths ∧ file = "./web/build/index.html")
  ∧ (∀ file name, FileAttachment file name ∈ written out.2 →
       method = GET
       ∧ path ∈ ["/api/pcap/sessions/:id/download";
                 "/api/pcap/connections/:id/download"])
  ∧ (∀ code text, Text code text ∈ written out.2 →
       (method, path, code) = (GET, "/api/streams/:id/download", 200))
  ∧ (∀ code, StatusCode code ∈ written out.2 →
       (method, path, code) = (POST, "/setup", 404)).
Proof.
  intros Hin. each_route Hin.
  all: all_paths; unfold index_paths; members.
Qed.

(** X11. No handler stops the chain but the setup: a handler leaves the
    exchange aborted only on POST /setup of a configured application, and none
    marks it finished. *)
Theorem only_setup_aborts (method : Method) (path : string)
    (h : gin.Context → M unit) (c : gin.Context) (a : ApplicationContext) (w : W) :
  (method, path, h) ∈ (router_routes ++ api_routes)%list →
  let out := h c (fresh a w) in
  finished out.2 = false
  ∧ (aborted out.2 = true → (method, path) = (POST, "/setup") ∧ IsConfigured a = true).
Proof.
  intros Hin. each_route Hin.
  all: all_paths; members.
Qed.

(** ** Uploading a pcap *)

(** Unfold the monad of the handlers, record projections included. *)
Ltac steps :=
  cbv [mbind mret M_bind M_ret call query emit write set_world set_app
       get_world get_app panic Abort finish stopped c_JSON c_AbortWithStatus
       c_AbortWithStatusJSON c_FileAttachment c_File c_String Notify success
       badRequest unprocessableEntity notFound serverError error_document fresh
       app world written aborted finished trace fst snd List.app].


(** ** The rotation interval *)

(** X13. PUT /api/capture/interval never refuses a body that binds: whatever
    the number of seconds that was bound, negative ones included, the interval
    is set and answered 200.  The interval handed to the importer is the product
    of the seconds and of the nanoseconds of a second as an [int64]: equal to
    the product when that fits, and off by a multiple of 2^64 otherwise. *)
Theorem PUT_capture_interval_outcome (c : gin.Context) (a : ApplicationContext)
    (w : W) (request : IntervalRequest) :
  ShouldBindJSON c = Ok request →
  let out := PUT_capture_interval c (fresh a w) in
  let product := RotationInterval request * secondsToNano in
  ∃ interval,
    out = (Val tt,
           {| app := a; world := SetSessionRotationInterval interval w;
              written := [JSON http.StatusOK (H {[ "result" := VString "ok" ]})];
              aborted := false; finished := false;
              trace := [EvSetSessionRotationInterval interval] |})
    ∧ - 2 ^ 63 ≤ interval < 2 ^ 63
    ∧ (interval - product) mod 2 ^ 64 = 0
    ∧ (- 2 ^ 63 ≤ product < 2 ^ 63 → interval = product).
Proof.
  intros Hbind. cbn zeta. unfold PUT_capture_interval. rewrite Hbind.
  exists (int64_mul (RotationInterval request) secondsToNano).
  split; [reflexivity |]. unfold int64_mul.
  set (product := RotationInterval request * secondsToNano).
  pose proof (Z.mod_pos_bound (product + 2 ^ 63) (2 ^ 64) ltac:(lia)) as Hrange.
  split; [lia |]. split.
  - replace ((product + 2 ^ 63) mod 2 ^ 64 - 2 ^ 63 - product)
      with ((product + 2 ^ 63) mod 2 ^ 64 - (product + 2 ^ 63)) by lia.
    rewrite Zminus_mod, Zmod_mod, <- Zminus_mod, Z.sub_diag. reflexivity.
  - intros Hfits. rewrite Z.mod_small by lia. lia.
Qed.

(** ** The precedence of the search errors *)

(** X14. The checks of a search overwrite each other's error, so the last
    check that fails is the one reported: the patterns of the regex search
    first, then the excluded terms without terms, then terms against exact
    phrase, and the choice between text search and regex search only when
    none of the others fails. *)
Theorem search_badContentError_precedence (options : SearchOptions) :
  let text := TextSearch_ options in
  let regex := RegexSearch_ options in
  search_badContentError options =
    if negb (isZero regex)
       && Bool.eqb (String.eqb (Pattern regex) "") (String.eqb (NotPattern regex) "")
    then Some "specify either 'pattern' or 'not_pattern'"
    else if negb (isZero text) && is_nil (Terms text) && negb (is_nil (ExcludedTerms text))
    then Some "'excluded_terms' must be specified only with 'terms'"
    else if negb (isZero text)
            && Bool.eqb (is_nil (Terms text)) (String.eqb (ExactPhrase text) "")
    then Some "specify either 'terms' or 'exact_phrase'"
    else if Bool.eqb (isZero text) (isZero regex)
    then Some "specify either 'text_search' or 'regex_search'"
    else None.
Proof.
  cbn zeta. unfold search_badContentError.
  destruct (isZero (TextSearch_ options)), (isZero (RegexSearch_ options)),
    (is_nil (Terms (TextSearch_ options))),
    (is_nil (ExcludedTerms (TextSearch_ options))),
    (String.eqb (ExactPhrase (TextSearch_ options)) ""),
    (String.eqb (Pattern (RegexSearch_ options)) ""),
    (String.eqb (NotPattern (RegexSearch_ options)) ""); reflexivity.
Qed.

(** ** The chain of the /api group *)

(** X15. The chain of an /api route on a configured application: without
    authentication both middlewares are transparent, the request being
    answered, the controllers called and the state left exactly as by the
    handler alone, a panic of the handler included; with authentication the
    chain is that of [gin.BasicAuth] over the configured accounts followed by
    the handler. *)
Theorem api_chain_of_configured_application (h : gin.Context → M unit)
    (c : gin.Context) (a : ApplicationContext) (w : W) :
  IsConfigured a = true →
  (AuthRequired (Config_ a) = false →
     let out := serve (api h) c a w in
     let direct := h c (fresh a w) in
     out.1 = direct.1
     ∧ written out.2 = written direct.2
     ∧ trace out.2 = trace direct.2
     ∧ world out.2 = world direct.2
     ∧ app out.2 = app direct.2)
  ∧ (AuthRequired (Config_ a) = true →
     serve (api h) c a w = serve [BasicAuth (Accounts a); route h] c a w).
Proof.
  intros Hconf.
  assert (serve (api h) c a w = serve [AuthRequiredMiddleware; route h] c a w) as ->.
  { unfold api, serve. apply run_handlers_pass_through; [| reflexivity].
    intros Next. by apply SetupRequiredMiddleware_passes. }
  split; intros Hauth.
  - assert (serve [AuthRequiredMiddleware; route h] c a w = serve [route h] c a w) as ->.
    { unfold serve. apply run_handlers_pass_through; [| reflexivity].
      intros Next. by apply AuthRequiredMiddleware_passes. }
    cbn zeta. unfold serve, route. cbn [run_handlers]. unfold mbind, M_bind.
    destruct (h c (fresh a w)) as [[[] | msg] x]; [| done].
    unfold stopped, finish, mret, M_ret.
    destruct (aborted x), (finished x); done.
  - unfold serve. cbn [run_handlers]. unfold mbind, M_bind.
    unfold AuthRequiredMiddleware at 1. unfold mbind, M_bind, get_app.
    cbn [fresh app]. rewrite Hauth. reflexivity.
Qed.

(** ** The names of the imported files *)

Lemma append_inj_r (t a b : string) : a +:+ t = b +:+ t → a = b.
Proof.
  assert (∀ u v, String.length (u +:+ v) = (String.length u + String.length v)%nat)
    as Hlen.
  { induction u as [| z u IHu]; intros v; [reflexivity |].
    change (S (String.length (u +:+ v)) = S (String.length u + String.length v)).
    f_equal. apply IHu. }
  revert b. induction a as [| x a IH]; intros [| y b] Heq.
  - reflexivity.
  - apply (f_equal String.length) in Heq. rewrite !Hlen in Heq. cbn in Heq. lia.
  - apply (f_equal String.length) in Heq. rewrite !Hlen in Heq. cbn in Heq. lia.
  - change (String x (a +:+ t) = String y (b +:+ t)) in Heq.
    injection Heq as -> Heq. f_equal. by apply IH.
Qed.

Lemma Sprintf_v_s_inj (s : string) (n m : Z) :
  Sprintf_v_s n s = Sprintf_v_s m s → n = m.
Proof.
  unfold Sprintf_v_s. intros Heq.
  apply (inj pretty), (append_inj_r ("-" +:+ s)). exact Heq.
Qed.

(** X16. The name under which a file is imported carries the time of the
    request: the same upload, or the same import of a file of the server,
    served at two different readings of the clock is imported under two
    different names, so neither overwrites the other in the processing
    directory. *)
Theorem import_names_differ_by_time (h : gin.Context → M unit) (c : gin.Context)
    (a1 a2 : ApplicationContext) (w1 w2 : W) (name1 name2 : string)
    (flushAll1 flushAll2 : bool) :
  h ∈ [POST_pcap_upload; POST_pcap_file] →
  (Now_UnixNano w1).1 ≠ (Now_UnixNano w2).1 →
  EvImportPcap name1 flushAll1 ∈ trace (h c (fresh a1 w1)).2 →
  EvImportPcap name2 flushAll2 ∈ trace (h c (fresh a2 w2)).2 →
  name1 ≠ name2.
Proof.
  intros Hh Hnow. apply elem_of_cons in Hh as [-> | Hh];
    [| apply list_elem_of_singleton in Hh as ->].
  - unfold POST_pcap_upload. destruct (gin.FormFile c "file") as [fileHeader | err].
    all: revert Hnow; steps.
    all: destruct (Now_UnixNano w1) as [now1 w1'], (Now_UnixNano w2) as [now2 w2'].
    all: all_paths; unfold not; members.
    all: match goal with
         | Hnow : _ = _ → False, Heq : Sprintf_v_s _ _ = Sprintf_v_s _ _ |- _ =>
             apply Sprintf_v_s_inj in Heq; symmetry in Heq; exact (Hnow Heq)
         end.
  - unfold POST_pcap_file.
    destruct (ShouldBindJSON c) as [request | err]; revert Hnow; steps;
      [| unfold not; members].
    all: destruct (FileExists (File request) w1), (FileExists (File request) w2).
    all: cbv beta iota zeta
             delta [negb app world written aborted finished trace fst snd List.app].
    all: destruct (Now_UnixNano w1) as [now1 w1'], (Now_UnixNano w2) as [now2 w2'].
    all: all_paths; unfold not; members.
    all: match goal with
         | Hnow : _ = _ → False, Heq : Sprintf_v_s _ _ = Sprintf_v_s _ _ |- _ =>
             apply Sprintf_v_s_inj in Heq; symmetry in Heq; exact (Hnow Heq)
         end.
Qed.

End Properties.

(** * The router on the in-memory instance *)

Import InMemory.

(** A search with both terms and an exact phrase is rejected. *)
Lemma POST_searches_perform_outcome_witness :
  ShouldBindJSON (request [] "" "terms=abc&exact_phrase=abc def") = Ok terms_and_phrase
  ∧ ∃ err,
      written (POST_searches_perform (request [] "" "terms=abc&exact_phrase=abc def")
                 (fresh (configured false) world_0)).2
      = [JSON 400 (H {[ "result" := VString "error"; "error" := VString err ]})]
      ∧ trace (POST_searches_perform (request [] "" "terms=abc&exact_phrase=abc def")
                 (fresh (configured false) world_0)).2 = [].
Proof.
  assert (ShouldBindJSON (request [] "" "terms=abc&exact_phrase=abc def")
          = Ok terms_and_phrase) as Hbind by reflexivity.
  split; [exact Hbind |].
  apply (POST_searches_perform_outcome _ (configured false) world_0 _ Hbind).
  - intros [terms excluded phrase rest]. unfold isZero, TextSearch_isZero. cbn.
    destruct terms; [discriminate | reflexivity].
  - discriminate.
  - discriminate.
Defined.

(** Session 1 is running: the importer cancels it. *)
Lemma DELETE_pcap_sessions_id_outcome_witness :
  implements_cancel_session sessions
  ∧ RowIDFromHex (gin.Param (request [("id", "000000000000000000000001")] "" "") "id")
    = Ok 1%N
  ∧ ((CancelSession 1%N world_0).1 = true
     ↔ ∃ s, sessions world_0 !! 1%N = Some s ∧ session_running s = true).
Proof.
  assert (implements_cancel_session sessions) as Himpl.
  { intros id w. split; reflexivity. }
  assert (RowIDFromHex (gin.Param (request [("id", "000000000000000000000001")] "" "") "id")
          = Ok 1%N) as Hid by reflexivity.
  split; [exact Himpl |]. split; [exact Hid |].
  exact (proj1 (DELETE_pcap_sessions_id_outcome sessions _ (configured false)
                  world_0 _ Himpl Hid)).
Defined.

(** A rule named "flag" exists already; AddRule is called with the bound
    rule. *)
Lemma POST_rules_outcome_witness :
  ShouldBindJSON (request [] "" "name=flag") = Ok {| rule_name := "flag" |}
  ∧ calls (trace (POST_rules (request [] "" "name=flag")
                    (fresh (configured false) world_0)).2)
    = [EvAddRule {| rule_name := "flag" |}].
Proof.
  assert (ShouldBindJSON (request [] "" "name=flag") = Ok {| rule_name := "flag" |})
    as Hbind by reflexivity.
  split; [exact Hbind |].
  exact (proj1 (POST_rules_outcome _ (configured false) world_0 _ Hbind)).
Defined.

(** C4. update_rule is to reject a failure of the rules manager with the
    status of add_rule.  It does not: with rules "flag" and "key" stored,
    renaming "key" to "flag" makes UpdateRule fail and adding a second "flag"
    makes AddRule fail, and PUT /api/rules/:id answers 400 where POST
    /api/rules answers 422. *)
Lemma PUT_rules_id_status_differs :
  (UpdateRule (request [("id", "000000000000000000000001")] "" "name=flag")
     1%N {| rule_name := "flag" |} world_0).1
    = Err "already exists another rule with the same name"
  ∧ (AddRule (request [] "" "name=flag") {| rule_name := "flag" |} world_0).1
    = Err "rule name must be unique"
  ∧ statuses (written (PUT_rules_id
                         (request [("id", "000000000000000000000001")] "" "name=flag")
                         (fresh (configured false) world_0)).2) = [400]
  ∧ statuses (written (POST_rules (request [] "" "name=flag")
                         (fresh (configured false) world_0)).2) = [422].
Proof. repeat split; vm_compute; reflexivity. Qed.

(** No connection has id 1: the lookup answers 404 naming it. *)
Lemma lookup_by_id_outcome_witness :
  RowIDFromHex (gin.Param (request [("id", "000000000000000000000001")] "" "") "id")
    = Ok 1%N
  ∧ GetConnection (request [("id", "000000000000000000000001")] "" "") 1%N world_0 = None
  ∧ written (GET_connections_id (request [("id", "000000000000000000000001")] "" "")
               (fresh (configured false) world_0)).2
    = [JSON 404 (H {[ "error" := VString "not found"; "connection" := VRowID 1%N ]})].
Proof.
  assert (RowIDFromHex (gin.Param (request [("id", "000000000000000000000001")] "" "") "id")
          = Ok 1%N) as Hid by reflexivity.
  assert (GetConnection (request [("id", "000000000000000000000001")] "" "") 1%N world_0
          = None) as Hnone by reflexivity.
  split; [exact Hid |]. split; [exact Hnone |].
  exact (proj1 (proj2 (proj2
           (proj1 (lookup_by_id_outcome _ (configured false) world_0) _ Hid))) Hnone).
Defined.

(** C5, as stated, fails on GET /api/streams/:id: the id is well formed and
    names no connection, yet a query string that does not bind is answered
    400, not 404. *)
Lemma GET_streams_id_unbound_query :
  RowIDFromHex (gin.Param (request [("id", "000000000000000000000001")] "skip=abc" "") "id")
    = Ok 1%N
  ∧ connections world_0 !! 1%N = None
  ∧ statuses (written (GET_streams_id
                         (request [("id", "000000000000000000000001")] "skip=abc" "")
                         (fresh (configured false) world_0)).2) = [400].
Proof. repeat split; vm_compute; reflexivity. Qed.

(** Session 2 is completed and only its pcapng file is on disk. *)
Lemma GET_pcap_sessions_id_download_outcome_witness :
  RowIDFromHex (gin.Param (request [("id", "000000000000000000000002")] "" "") "id")
    = Ok 2%N
  ∧ written (GET_pcap_sessions_id_download
               (request [("id", "000000000000000000000002")] "" "")
               (fresh (configured false) world_0)).2
    = [FileAttachment "pcaps/000000000000000000000002.pcapng"
         "000000000000000000000002.pcapng"].
Proof.
  assert (RowIDFromHex (gin.Param (request [("id", "000000000000000000000002")] "" "") "id")
          = Ok 2%N) as Hid by reflexivity.
  split; [exact Hid |].
  destruct (GET_pcap_sessions_id_download_outcome _ (configured false) world_0 _ Hid)
    as (_ & Hsome & _).
  destruct Hsome as (_ & Hpcapng & _).
  - exists session_2. reflexivity.
  - apply Hpcapng; reflexivity.
Defined.

(** Hiding connection 7. *)
Lemma POST_connections_id_action_outcome_witness :
  RowIDFromHex
    (gin.Param (request [("id", "000000000000000000000007"); ("action", "hide")] "" "") "id")
    = Ok 7%N
  ∧ action_runs (request [("id", "000000000000000000000007"); ("action", "hide")] "" "")
      (configured false) world_0 7%N (EvSetHidden 7%N true)
      (SetHidden (request [("id", "000000000000000000000007"); ("action", "hide")] "" "")
         7%N true).
Proof.
  assert (RowIDFromHex
            (gin.Param (request [("id", "000000000000000000000007"); ("action", "hide")] "" "")
               "id") = Ok 7%N) as Hid by reflexivity.
  split; [exact Hid |].
  apply (POST_connections_id_action_outcome _ (configured false) world_0 _ Hid).
  reflexivity.
Defined.

(** Before the setup, a lookup of a rule is answered 503. *)
Lemma setup_gate_witness :
  IsConfigured unconfigured = false
  ∧ statuses (written (serve (api GET_rules_id)
                         (request [("id", "000000000000000000000000")] "" "")
                         unconfigured world_0).2) = [503].
Proof.
  assert (IsConfigured unconfigured = false) as Hconf by reflexivity.
  split; [exact Hconf |].
  destruct (setup_gate (request [("id", "000000000000000000000000")] "" "")
              unconfigured world_0) as (_ & _ & _ & Hgate).
  rewrite (Hgate Hconf GET_rules_id). reflexivity.
Defined.

(** Without authentication, good credentials and no credentials are served
    alike. *)
Lemma auth_gate_witness :
  AuthRequired (Config_ (configured false)) = false
  ∧ credential_blind_controllers
  ∧ (GET, "/api/connections/:id", GET_connections_id) ∈ api_routes
  ∧ serve (api GET_connections_id)
      (with_credentials (Some "admin:secret")
         (request [("id", "000000000000000000000007")] "" ""))
      (configured false) world_0
    = serve (api GET_connections_id)
        (with_credentials None (request [("id", "000000000000000000000007")] "" ""))
        (configured false) world_0.
Proof.
  assert (AuthRequired (Config_ (configured false)) = false) as Hauth by reflexivity.
  assert credential_blind_controllers as Hblind by (repeat split; reflexivity).
  assert ((GET, "/api/connections/:id", GET_connections_id) ∈ api_routes) as Hin
    by (cbv [api_routes api_group fmap list_fmap fst snd String.append];
        repeat first [apply list_elem_of_here | apply list_elem_of_further]).
  split; [exact Hauth |]. split; [exact Hblind |]. split; [exact Hin |].
  destruct (auth_gate (request [("id", "000000000000000000000007")] "" "")
              (configured false) world_0 GET_connections_id) as [Hopen _].
  destruct (Hopen Hauth) as (_ & _ & Hroutes).
  exact (Hroutes Hblind _ _ Hin (Some "admin:secret") None).
Defined.

(** The import fails because a session is running, so the original is
    removed; before that the file was copied under the name of the clock
    reading. *)
Lemma POST_pcap_file_outcome_witness :
  ShouldBindJSON (request [] "" "file=/tmp/dump.pcap&delete_original_file=true")
    = Ok {| File := "/tmp/dump.pcap"; FlushAll := false; DeleteOriginalFile := true |}
  ∧ take 3 (trace (POST_pcap_file
                     (request [] "" "file=/tmp/dump.pcap&delete_original_file=true")
                     (fresh (configured false) world_0)).2)
    = [EvFileExists "/tmp/dump.pcap"; EvNow;
       EvCopyFile "pcaps/processing/1700000000-dump.pcap" "/tmp/dump.pcap"]
  ∧ EvRemove "/tmp/dump.pcap"
    ∈ trace (POST_pcap_file (request [] "" "file=/tmp/dump.pcap&delete_original_file=true")
               (fresh (configured false) world_0)).2.
Proof.
  assert (ShouldBindJSON (request [] "" "file=/tmp/dump.pcap&delete_original_file=true")
          = Ok {| File := "/tmp/dump.pcap"; FlushAll := false;
                  DeleteOriginalFile := true |}) as Hbind by reflexivity.
  assert (FileExists "/tmp/dump.pcap" world_0 = true) as Hexists by reflexivity.
  split; [exact Hbind |].
  destruct (POST_pcap_file_outcome _ (configured false) world_0 _ Hbind)
    as (_ & Hcopy & Hremove & _).
  split; [exact (proj1 (Hcopy Hexists)) |].
  apply Hremove. split; [reflexivity |]. split; [reflexivity |].
  split; [| reflexivity].
  exists "another session is running". reflexivity.
Defined.

(** C10, as stated, fails on the freshness of the name: when the clock reads
    the same for a second import of the same file, the file is copied under
    the name of the first copy, which is still in the processing directory. *)
Lemma POST_pcap_file_name_reused :
  EvCopyFile "pcaps/processing/1700000000-dump.pcap" "/tmp/dump.pcap"
  ∈ trace (POST_pcap_file (request [] "" "file=/tmp/dump.pcap")
             (fresh (configured false) world_0)).2
  ∧ FileExists "pcaps/processing/1700000000-dump.pcap"
      (with_clock 1700000000
         (world (POST_pcap_file (request [] "" "file=/tmp/dump.pcap")
                   (fresh (configured false) world_0)).2)) = true
  ∧ EvCopyFile "pcaps/processing/1700000000-dump.pcap" "/tmp/dump.pcap"
    ∈ trace (POST_pcap_file (request [] "" "file=/tmp/dump.pcap")
               (fresh (configured false)
                  (with_clock 1700000000
                     (world (POST_pcap_file (request [] "" "file=/tmp/dump.pcap")
                               (fresh (configured false) world_0)).2)))).2.
Proof.
  repeat split; vm_compute;
    repeat first [reflexivity | apply list_elem_of_here | apply list_elem_of_further].
Qed.

(** ** The route table on the in-memory instance *)

Ltac route_listed :=
  cbv [router_routes api_routes api_group index_paths fmap list_fmap List.app
       fst snd String.append];
  repeat first [apply list_elem_of_here | apply list_elem_of_further].

Ltac listed := vm_compute; repeat first [apply list_elem_of_here | apply list_elem_of_further].


(** Stopping the capture notifies once, as the last step, after its 200. *)
Lemma notifications_only_on_success_witness :
  (DELETE, "/api/capture", DELETE_capture) ∈ (router_routes ++ api_routes)%list
  ∧ (notifications
       (trace (DELETE_capture (request [] "" "") (fresh (configured false) capturing)).2) = []
     ∨ ∃ event payload,
         notifications
           (trace (DELETE_capture (request [] "" "") (fresh (configured false) capturing)).2)
         = [(event, payload)]
         ∧ last (trace (DELETE_capture (request [] "" "")
                          (fresh (configured false) capturing)).2)
           = Some (EvNotify event payload)
         ∧ (DELETE_capture (request [] "" "") (fresh (configured false) capturing)).1 = Val tt
         ∧ DELETE ≠ GET
         ∧ (statuses (written (DELETE_capture (request [] "" "")
                                 (fresh (configured false) capturing)).2) = [200]
            ∨ statuses (written (DELETE_capture (request [] "" "")
                                   (fresh (configured false) capturing)).2) = [202])).
Proof.
  assert ((DELETE, "/api/capture", DELETE_capture) ∈ (router_routes ++ api_routes)%list)
    as Hin by route_listed.
  split; [exact Hin |].
  exact (notifications_only_on_success _ _ _ (request [] "" "") (configured false)
           capturing Hin).
Defined.

(** The notification of a stopped capture is 'capture.stop'. *)
Lemma notification_events_witness :
  (DELETE, "/api/capture", DELETE_capture) ∈ (router_routes ++ api_routes)%list
  ∧ EvNotify "capture.stop" (H {[ "capture" := VString "stop" ]})
    ∈ trace (DELETE_capture (request [] "" "") (fresh (configured false) capturing)).2
  ∧ (DELETE, "/api/capture", "capture.stop")
    ∈ [ (POST, "/setup", "setup");
        (POST, "/api/rules", "rules.new");
        (PUT, "/api/rules/:id", "rules.edit");
        (POST, "/api/pcap/upload", "pcap.upload");
        (POST, "/api/pcap/file", "pcap.file");
        (PUT, "/api/capture/local", "capture.local");
        (DELETE, "/api/capture", "capture.stop");
        (PUT, "/api/capture/remote", "capture.remote");
        (DELETE, "/api/pcap/sessions/:id", "sessions.delete");
        (POST, "/api/connections/:id/:action", "connections.action");
        (PUT, "/api/services", "services.edit");
        (DELETE, "/api/services", "services.edit") ].
Proof.
  assert ((DELETE, "/api/capture", DELETE_capture) ∈ (router_routes ++ api_routes)%list)
    as Hin by route_listed.
  assert (EvNotify "capture.stop" (H {[ "capture" := VString "stop" ]})
          ∈ trace (DELETE_capture (request [] "" "") (fresh (configured false) capturing)).2)
    as Hnotify by listed.
  split; [exact Hin |]. split; [exact Hnotify |].
  exact (notification_events _ _ _ (request [] "" "") (configured false) capturing
           _ _ Hin Hnotify).
Defined.

(** A second setup leaves the configuration as it is. *)
Lemma configuration_changes_only_by_setup_witness :
  (POST, "/setup", POST_setup) ∈ (router_routes ++ api_routes)%list
  ∧ ((POST, "/setup") ≠ (POST, "/setup") ∨ IsConfigured (configured true) = true)
  ∧ app (POST_setup (request [] "" "password=other") (fresh (configured true) world_0)).2
    = configured true.
Proof.
  assert ((POST, "/setup", POST_setup) ∈ (router_routes ++ api_routes)%list) as Hin
    by route_listed.
  assert ((POST, "/setup") ≠ (POST, "/setup") ∨ IsConfigured (configured true) = true)
    as Hconf by (right; reflexivity).
  split; [exact Hin |]. split; [exact Hconf |].
  exact (proj1 (configuration_changes_only_by_setup _ _ _ (request [] "" "password=other")
                  (configured true) world_0 Hin Hconf)).
Defined.

(** Importing a file of the server is the route that may remove a file. *)
Lemma file_system_changes_confined_witness :
  (POST, "/api/pcap/file", POST_pcap_file) ∈ (router_routes ++ api_routes)%list
  ∧ ∀ fileName flushAll,
      EvImportPcap fileName flushAll
      ∈ trace (POST_pcap_file (request [] "" "file=/tmp/dump.pcap")
                 (fresh (configured false) world_0)).2 →
      POST = POST ∧ "/api/pcap/file" ∈ ["/api/pcap/upload"; "/api/pcap/file"].
Proof.
  assert ((POST, "/api/pcap/file", POST_pcap_file) ∈ (router_routes ++ api_routes)%list)
    as Hin by route_listed.
  split; [exact Hin |].
  exact (proj2 (proj2 (proj2
           (file_system_changes_confined _ _ _ (request [] "" "file=/tmp/dump.pcap")
              (configured false) world_0 Hin)))).
Defined.

(** Cancelling the running session is answered 202. *)
Lemma status_codes_of_routes_witness :
  (DELETE, "/api/pcap/sessions/:id", DELETE_pcap_sessions_id)
  ∈ (router_routes ++ api_routes)%list
  ∧ 202 ∈ statuses (written (DELETE_pcap_sessions_id
                               (request [("id", "000000000000000000000001")] "" "")
                               (fresh (configured false) world_0)).2)
  ∧ 202 ∈ [200; 202; 400; 404; 422; 500].
Proof.
  assert ((DELETE, "/api/pcap/sessions/:id", DELETE_pcap_sessions_id)
          ∈ (router_routes ++ api_routes)%list) as Hin by route_listed.
  assert (202 ∈ statuses (written (DELETE_pcap_sessions_id
                                     (request [("id", "000000000000000000000001")] "" "")
                                     (fresh (configured false) world_0)).2))
    as Hcode by listed.
  split; [exact Hin |]. split; [exact Hcode |].
  exact (proj1 (status_codes_of_routes _ _ _
                  (request [("id", "000000000000000000000001")] "" "")
                  (configured false) world_0 202 Hin Hcode)).
Defined.

(** A rule looked up by an id that is no hex string. *)
Lemma malformed_id_rejected_first_witness :
  (GET, "/api/rules/:id", GET_rules_id) ∈ api_routes
  ∧ String.index 0 ":id" "/api/rules/:id" ≠ None
  ∧ RowIDFromHex (gin.Param (request [("id", "zz")] "" "") "id")
    = Err "the provided hex string is not a valid ObjectID"
  ∧ GET_rules_id (request [("id", "zz")] "" "") (fresh (configured false) world_0)
    = badRequest "the provided hex string is not a valid ObjectID"
        (fresh (configured false) world_0).
Proof.
  assert ((GET, "/api/rules/:id", GET_rules_id) ∈ api_routes) as Hin by route_listed.
  assert (String.index 0 ":id" "/api/rules/:id" ≠ None) as Hid by (vm_compute; discriminate).
  assert (RowIDFromHex (gin.Param (request [("id", "zz")] "" "") "id")
          = Err "the provided hex string is not a valid ObjectID") as Herr by reflexivity.
  split; [exact Hin |]. split; [exact Hid |]. split; [exact Herr |].
  exact (malformed_id_rejected_first _ _ _ (request [("id", "zz")] "" "")
           (configured false) world_0 _ Hin Hid Herr).
Defined.

(** Stopping a capture that does not run is answered with the error
    document. *)
Lemma error_answers_carry_error_document_witness :
  (DELETE, "/api/capture", DELETE_capture) ∈ (router_routes ++ api_routes)%list
  ∧ JSON 400 (error_document "no capture running")
    ∈ written (DELETE_capture (request [] "" "") (fresh (configured false) world_0)).2
  ∧ (400 ∈ [400; 422; 500] →
     ∃ err, error_document "no capture running" = error_document err).
Proof.
  assert ((DELETE, "/api/capture", DELETE_capture) ∈ (router_routes ++ api_routes)%list)
    as Hin by route_listed.
  assert (JSON 400 (error_document "no capture running")
          ∈ written (DELETE_capture (request [] "" "")
                       (fresh (configured false) world_0)).2) as Hwritten by listed.
  split; [exact Hin |]. split; [exact Hwritten |].
  exact (proj1 (error_answers_carry_error_document _ _ _ (request [] "" "")
                  (configured false) world_0 _ _ Hin Hwritten)).
Defined.

(** The page of the pcaps is the page of the web application. *)
Lemma answer_kinds_of_routes_witness :
  (GET, "/pcaps", GET_index) ∈ (router_routes ++ api_routes)%list
  ∧ ∀ file,
      ServedFile file
      ∈ written (GET_index (request [] "" "") (fresh unconfigured world_0)).2 →
      GET = GET ∧ "/pcaps" ∈ index_paths ∧ file = "./web/build/index.html".
Proof.
  assert ((GET, "/pcaps", GET_index) ∈ (router_routes ++ api_routes)%list) as Hin
    by route_listed.
  split; [exact Hin |].
  exact (proj1 (answer_kinds_of_routes _ _ _ (request [] "" "") unconfigured world_0 Hin)).
Defined.

(** A second setup aborts the chain. *)
Lemma only_setup_aborts_witness :
  (POST, "/setup", POST_setup) ∈ (router_routes ++ api_routes)%list
  ∧ finished (POST_setup (request [] "" "") (fresh (configured false) world_0)).2 = false
  ∧ (aborted (POST_setup (request [] "" "") (fresh (configured false) world_0)).2 = true →
     (POST, "/setup") = (POST, "/setup") ∧ IsConfigured (configured false) = true).
Proof.
  assert ((POST, "/setup", POST_setup) ∈ (router_routes ++ api_routes)%list) as Hin
    by route_listed.
  split; [exact Hin |].
  exact (only_setup_aborts _ _ _ (request [] "" "") (configured false) world_0 Hin).
Defined.

(** Three seconds are three thousand million nanoseconds. *)
Lemma PUT_capture_interval_outcome_witness :
  ShouldBindJSON (request [] "" "rotation_interval=300") = Ok {| RotationInterval := 3 |}
  ∧ ∃ interval,
      PUT_capture_interval (request [] "" "rotation_interval=300")
        (fresh (configured false) world_0)
      = (Val tt,
         {| app := configured false;
            world := SetSessionRotationInterval interval world_0;
            written := [JSON http.StatusOK (H {[ "result" := VString "ok" ]})];
            aborted := false; finished := false;
            trace := [EvSetSessionRotationInterval interval] |})
      ∧ - 2 ^ 63 ≤ interval < 2 ^ 63
      ∧ (interval - 3 * secondsToNano) mod 2 ^ 64 = 0
      ∧ (- 2 ^ 63 ≤ 3 * secondsToNano < 2 ^ 63 → interval = 3 * secondsToNano).
Proof.
  assert (ShouldBindJSON (request [] "" "rotation_interval=300")
          = Ok {| RotationInterval := 3 |}) as Hbind by reflexivity.
  split; [exact Hbind |].
  exact (PUT_capture_interval_outcome (request [] "" "rotation_interval=300")
           (configured false) world_0 _ Hbind).
Defined.

(** The list of the rules behind the two middlewares of an open, configured
    application. *)
Lemma api_chain_of_configured_application_witness :
  IsConfigured (configured false) = true
  ∧ AuthRequired (Config_ (configured false)) = false
  ∧ written (serve (api GET_rules) (request [] "" "") (configured false) world_0).2
    = written (GET_rules (request [] "" "") (fresh (configured false) world_0)).2.
Proof.
  assert (IsConfigured (configured false) = true) as Hconf by reflexivity.
  assert (AuthRequired (Config_ (configured false)) = false) as Hauth by reflexivity.
  split; [exact Hconf |]. split; [exact Hauth |].
  exact (proj1 (proj2 (proj1 (api_chain_of_configured_application GET_rules
                                (request [] "" "") (configured false) world_0 Hconf)
                         Hauth))).
Defined.

(** The same upload one nanosecond later. *)
Lemma import_names_differ_by_time_witness :
  POST_pcap_upload ∈ [POST_pcap_upload; POST_pcap_file]
  ∧ (Now_UnixNano world_0).1 ≠ (Now_UnixNano (with_clock 1700000001 world_0)).1
  ∧ EvImportPcap "1700000000-dump.pcap" false
    ∈ trace (POST_pcap_upload (request [] "" "file=dump.pcap")
               (fresh (configured false) world_0)).2
  ∧ EvImportPcap "1700000001-dump.pcap" false
    ∈ trace (POST_pcap_upload (request [] "" "file=dump.pcap")
               (fresh (configured false) (with_clock 1700000001 world_0))).2
  ∧ "1700000000-dump.pcap" ≠ "1700000001-dump.pcap".
Proof.
  assert (POST_pcap_upload ∈ [POST_pcap_upload; POST_pcap_file]) as Hh
    by apply list_elem_of_here.
  assert ((Now_UnixNano world_0).1 ≠ (Now_UnixNano (with_clock 1700000001 world_0)).1)
    as Hnow by (vm_compute; discriminate).
  assert (EvImportPcap "1700000000-dump.pcap" false
          ∈ trace (POST_pcap_upload (request [] "" "file=dump.pcap")
                     (fresh (configured false) world_0)).2) as Hfirst by listed.
  assert (EvImportPcap "1700000001-dump.pcap" false
          ∈ trace (POST_pcap_upload (request [] "" "file=dump.pcap")
                     (fresh (configured false) (with_clock 1700000001 world_0))).2)
    as Hsecond by listed.
  split; [exact Hh |]. split; [exact Hnow |]. split; [exact Hfirst |].
  split; [exact Hsecond |].
  exact (import_names_differ_by_time _ _ _ _ _ _ _ _ _ _ Hh Hnow Hfirst Hsecond).
Defined.

(** ** An upload on a full disk *)

Section FullDisk.

#[local] Existing Instance full_disk.


End FullDisk.
